(** * pyzbar.decode: a shallow embedding of [pyzbar/pyzbar.py]

    The module drives the zbar engine (reached through [pyzbar.wrapper])
    through a create / configure / scan / destroy protocol and turns the
    engine's symbols into [Decoded] records.  The engine is foreign code: it
    is modelled as an arbitrary deterministic state machine over an abstract
    [World], and every call made to it is logged, with its answer, in the
    trace of the run.  Python exceptions are values of [exn]; the two context
    managers take the body of their [with] block and run it under
    finally-semantics; the two generators are resumable computations. *)

From Stdlib Require Import ZArith List String Bool Lia SpecFloat.
Import ListNotations.
Local Open Scope string_scope.
Local Open Scope list_scope.
Local Open Scope Z_scope.

(** ** Python values, exceptions and results *)

Definition bytes := list Byte.byte.

(** [len(b)] as a Python int. *)
Definition len {A : Type} (l : list A) : Z := Z.of_nat (List.length l).

(** The value a message was formatted with ([str.format], [%r]). *)
Inductive pyvalue : Type :=
| PyInt (z : Z)
| PyFloat (f : spec_float).

(** An exception message: a literal, or a template with the value that is
    substituted for its single placeholder.  The decimal rendering of the
    value is left to Python. *)
Inductive message : Type :=
| Literal (s : string)
| Format (template : string) (arg : pyvalue).

Inductive exn_class : Type :=
| PyZbarError
| ValueError
| ZeroDivisionError
| OverflowError.

Record exn : Type := Exn { exn_type : exn_class; exn_msg : message }.

(** What running a piece of Python gives: a value, a raised exception, or
    no answer within the fuel given to the [while] loop. *)
Inductive outcome (A : Type) : Type :=
| Return (a : A)
| Raise (e : exn)
| OutOfFuel.
Arguments Return {A} a.
Arguments Raise {A} e.
Arguments OutOfFuel {A}.

(** ** Floats: Python 3 true division of ints

    [int / int] is the correctly rounded (to nearest, ties to even) binary64
    value of the exact quotient; a zero divisor raises [ZeroDivisionError], a
    quotient beyond the binary64 range raises [OverflowError].  The file
    imports [print_function] only, so under Python 2 [/] would be floor
    division; the embedding follows Python 3. *)

Definition prec : Z := 53.
Definition emax : Z := 1024.

Definition float_of_int (z : Z) : spec_float :=
  match z with
  | Z0 => S754_zero false
  | Zpos p => S754_finite false p 0
  | Zneg p => S754_finite true p 0
  end.

Definition int_truediv (a b : Z) : outcome spec_float :=
  if b =? 0 then Raise (Exn ZeroDivisionError (Literal "division by zero"))
  else
    match SFdiv prec emax (float_of_int a) (float_of_int b) with
    | S754_infinity _ | S754_nan =>
        Raise (Exn OverflowError
                 (Literal "integer division result too large for a float"))
    | q => Return q
    end.

(** [n == f] for an int [n] and a float [f] compares the two numbers exactly;
    the int is first brought to its binary64 form. *)
Definition int_eq_float (n : Z) (f : spec_float) : bool :=
  SFeqb f (binary_normalize prec emax n 0 false).

(** The floats 8.0 and 16.0. *)
Definition eight : spec_float := S754_finite false 4503599627370496 (-49).
Definition sixteen : spec_float := S754_finite false 4503599627370496 (-48).

(** ** Result records *)

(** [Rect = namedtuple('Rect', ['left', 'top', 'width', 'height'])] *)
Record Rect : Type := mkRect { left : Z; top : Z; width : Z; height : Z }.

(** [Decoded = namedtuple('Decoded', ['data', 'type', 'rect'])] *)
Record Decoded : Type := mkDecoded { data : bytes; type : string; rect : Rect }.

(** [FOURCC = {'L800': 808466521, 'GRAY': 1497715271}] *)
Definition FOURCC : list (string * Z) :=
  [("L800", 808466521); ("GRAY", 1497715271)].

(** [FOURCC['L800']] *)
Definition FOURCC_L800 : Z :=
  Eval cbv in
    match find (fun entry => String.eqb (fst entry) "L800") FOURCC with
    | Some entry => snd entry
    | None => 0
    end.

(** ** bounding_box_of_locations *)

(** The built-ins [min] and [max] over a list: one sweep keeping the best
    value so far, [ValueError] on an empty list. *)
Definition py_min (l : list Z) : outcome Z :=
  match l with
  | [] => Raise (Exn ValueError (Literal "min() arg is an empty sequence"))
  | x :: xs => Return (fold_left Z.min xs x)
  end.

Definition py_max (l : list Z) : outcome Z :=
  match l with
  | [] => Raise (Exn ValueError (Literal "max() arg is an empty sequence"))
  | x :: xs => Return (fold_left Z.max xs x)
  end.

(** Sequencing of pure, fallible steps. *)
Definition and_then {A B : Type} (o : outcome A) (k : A -> outcome B)
  : outcome B :=
  match o with
  | Return a => k a
  | Raise e => Raise e
  | OutOfFuel => OutOfFuel
  end.

Definition bounding_box_of_locations (locations : list (Z * Z)) : outcome Rect :=
  let x_values := map fst locations in
  and_then (py_min x_values) (fun x_min =>
  and_then (py_max x_values) (fun x_max =>
  let y_values := map snd locations in
  and_then (py_min y_values) (fun y_min =>
  and_then (py_max y_values) (fun y_max =>
  Return (mkRect x_min y_min (x_max - x_min) (y_max - y_min)))))).

(** ** The image argument

    [decode] accepts a [PIL.Image], a [numpy.ndarray] or a tuple
    [(pixels, width, height)], told apart by the name of the value's type.
    PIL and numpy are foreign libraries: their objects are abstract and
    their methods are the fields of an interface. *)

Class PILImage (pil : Type) : Type := {
  pil_mode : pil -> string;                 (* image.mode *)
  pil_convert : pil -> string -> pil;       (* image.convert(mode) *)
  pil_tobytes : pil -> bytes;               (* image.tobytes() *)
  pil_size : pil -> Z * Z                   (* image.size = (width, height) *)
}.

Class NDArray (ndarray : Type) : Type := {
  nd_shape : ndarray -> list Z;             (* image.shape *)
  nd_first_channel : ndarray -> ndarray;    (* image[:, :, 0] *)
  nd_dtype : ndarray -> string;             (* str(image.dtype) *)
  nd_astype : ndarray -> string -> ndarray; (* image.astype(dtype) *)
  nd_tobytes : ndarray -> option bytes;     (* image.tobytes(), absent before numpy 1.9.0 *)
  nd_tostring : ndarray -> bytes            (* image.tostring() *)
}.

Inductive image (pil ndarray : Type) : Type :=
| PIL_Image (im : pil)
| Numpy_ndarray (a : ndarray)
| Triple (pixels : bytes) (width height : Z).
Arguments PIL_Image {pil ndarray} im.
Arguments Numpy_ndarray {pil ndarray} a.
Arguments Triple {pil ndarray} pixels width height.

Section Normalize.
Context {pil ndarray : Type} `{PILImage pil} `{NDArray ndarray}.

(** Lines 155-175 of [decode]: the branch on the kind of [image], giving
    [pixels], [width] and [height]. *)
Definition pixels_width_height (img : image pil ndarray)
  : outcome (bytes * Z * Z) :=
  match img with
  | PIL_Image im =>
      let im := if negb (String.eqb "L" (pil_mode im))
                then pil_convert im "L" else im in
      let pixels := pil_tobytes im in
      let '(width, height) := pil_size im in
      Return (pixels, width, height)
  | Numpy_ndarray a =>
      let a := if 3 =? len (nd_shape a) then nd_first_channel a else a in
      let a := if negb (String.eqb "uint8" (nd_dtype a))
               then nd_astype a "uint8" else a in
      let pixels := match nd_tobytes a with
                    | Some b => b
                    | None => nd_tostring a
                    end in
      match firstn 2 (nd_shape a) with
      | [height; width] => Return (pixels, width, height)
      | ([] | [_]) as dims =>
          Raise (Exn ValueError
                   (Format "not enough values to unpack (expected 2, got {0})"
                           (PyInt (len dims))))
      | _ => Raise (Exn ValueError (Literal "too many values to unpack"))
      end
  | Triple pixels width height => Return (pixels, width, height)
  end.
End Normalize.

(** ** The zbar engine behind [pyzbar.wrapper]

    A handle is an address, [0] for the null pointer.  Each primitive takes
    the state of the engine and gives its answer and the next state. *)

Definition handle := Z.

(** [if handle:] — a null pointer is falsy. *)
Definition truthy (h : handle) : bool := negb (h =? 0).

Record wrapper (World : Type) : Type := {
  zbar_image_scanner_create : World -> handle * World;
  zbar_image_scanner_destroy : handle -> World -> World;
  zbar_image_scanner_set_config : handle -> Z -> Z -> Z -> World -> Z * World;
  zbar_image_create : World -> handle * World;
  zbar_image_destroy : handle -> World -> World;
  zbar_image_set_format : handle -> Z -> World -> World;
  zbar_image_set_size : handle -> Z -> Z -> World -> World;
  zbar_image_set_data : handle -> bytes -> Z -> World -> World;
  zbar_scan_image : handle -> handle -> World -> Z * World;
  zbar_image_first_symbol : handle -> World -> handle * World;
  zbar_symbol_next : handle -> World -> handle * World;
  zbar_symbol_get_data : handle -> World -> Z * World;
  zbar_symbol_get_loc_size : handle -> World -> Z * World;
  zbar_symbol_get_loc_x : handle -> Z -> World -> Z * World;
  zbar_symbol_get_loc_y : handle -> Z -> World -> Z * World;
  (* ctypes reads of the engine's memory *)
  string_at : Z -> World -> bytes;          (* string_at(pointer) *)
  contents_type : handle -> World -> Z;     (* symbol.contents.type *)
  (* constants of the wrapper module *)
  CFG_ENABLE : Z;                           (* ZBarConfig.CFG_ENABLE *)
  ZBarSymbol : list (string * Z)            (* the members of the enum, (name, value) *)
}.
Arguments zbar_image_scanner_create {World} _ _.
Arguments zbar_image_scanner_destroy {World} _ _ _.
Arguments zbar_image_scanner_set_config {World} _ _ _ _ _ _.
Arguments zbar_image_create {World} _ _.
Arguments zbar_image_destroy {World} _ _ _.
Arguments zbar_image_set_format {World} _ _ _ _.
Arguments zbar_image_set_size {World} _ _ _ _ _.
Arguments zbar_image_set_data {World} _ _ _ _ _.
Arguments zbar_scan_image {World} _ _ _ _.
Arguments zbar_image_first_symbol {World} _ _ _.
Arguments zbar_symbol_next {World} _ _ _.
Arguments zbar_symbol_get_data {World} _ _ _.
Arguments zbar_symbol_get_loc_size {World} _ _ _.
Arguments zbar_symbol_get_loc_x {World} _ _ _ _.
Arguments zbar_symbol_get_loc_y {World} _ _ _ _.
Arguments string_at {World} _ _ _.
Arguments contents_type {World} _ _ _.
Arguments CFG_ENABLE {World} _.
Arguments ZBarSymbol {World} _.

(** One entry of the trace: the primitive, its arguments and its answer. *)
Inductive event : Type :=
| ScannerCreate (ret : handle)
| ScannerDestroy (scanner : handle)
| SetConfig (scanner : handle) (symbol config value : Z)
| ImageCreate (ret : handle)
| ImageDestroy (img : handle)
| SetFormat (img : handle) (fourcc : Z)
| SetSize (img : handle) (width height : Z)
| SetData (img : handle) (pixels : bytes) (length : Z)
| ScanImage (scanner img : handle) (ret : Z)
| FirstSymbol (img : handle) (ret : handle)
| SymbolNext (symbol : handle) (ret : handle)
| GetData (symbol : handle) (ret : Z)
| GetLocSize (symbol : handle) (ret : Z)
| GetLocX (symbol : handle) (index : Z) (ret : Z)
| GetLocY (symbol : handle) (index : Z) (ret : Z).

(** ** Running Python against the engine

    A computation takes the state of the engine and gives its result, the
    next state and the calls it made, oldest first. *)

Section Run.
Variable World : Type.

Definition M (A : Type) : Type := World -> outcome A * World * list event.

Definition ret {A : Type} (a : A) : M A := fun w => (Return a, w, []).

Definition raise {A : Type} (e : exn) : M A := fun w => (Raise e, w, []).

Definition out_of_fuel {A : Type} : M A := fun w => (OutOfFuel, w, []).

Definition bind {A B : Type} (m : M A) (k : A -> M B) : M B :=
  fun w =>
    match m w with
    | (Return a, w1, t1) =>
        match k a w1 with
        | (r, w2, t2) => (r, w2, t1 ++ t2)
        end
    | (Raise e, w1, t1) => (Raise e, w1, t1)
    | (OutOfFuel, w1, t1) => (OutOfFuel, w1, t1)
    end.

(** A pure, fallible step inside a computation. *)
Definition lift {A : Type} (o : outcome A) : M A := fun w => (o, w, []).

(** A primitive with an answer, and one without. *)
Definition call {A : Type} (f : World -> A * World) (ev : A -> event) : M A :=
  fun w => let '(a, w1) := f w in (Return a, w1, [ev a]).

Definition call_ (f : World -> World) (ev : event) : M unit :=
  fun w => (Return tt, f w, [ev]).

(** A read of the engine's memory: no call, no change. *)
Definition peek {A : Type} (f : World -> A) : M A :=
  fun w => (Return (f w), w, []).

(** [try: body finally: cleanup], for a cleanup that cannot raise: the
    cleanup runs after the body whether it returned or raised, and the
    body's result stands.  A body that never finishes never reaches it. *)
Definition try_finally {A : Type} (body : M A) (cleanup : M unit) : M A :=
  fun w =>
    match body w with
    | (OutOfFuel, w1, t1) => (OutOfFuel, w1, t1)
    | (r, w1, t1) =>
        match cleanup w1 with
        | (_, w2, t2) => (r, w2, t1 ++ t2)
        end
    end.

(** [for x in xs: body(x)] *)
Fixpoint for_each {A : Type} (xs : list A) (body : A -> M unit) : M unit :=
  match xs with
  | [] => ret tt
  | x :: rest => bind (body x) (fun _ => for_each rest body)
  end.

(** [[f(i) for i in range(n)]] — [range(n)] is empty when [n <= 0]. *)
Definition range (n : Z) : list Z := map Z.of_nat (seq 0 (Z.to_nat n)).

Fixpoint list_comp {A B : Type} (xs : list A) (f : A -> M B) : M (list B) :=
  match xs with
  | [] => ret []
  | x :: rest =>
      bind (f x) (fun b => bind (list_comp rest f) (fun bs => ret (b :: bs)))
  end.

(** A generator: resuming it runs the body up to the next [yield], giving
    the yielded value and the generator to resume next, or [None] when the
    body returns. *)
#[warnings="-register-all"]
Inductive generator (A : Type) : Type :=
| Gen (resume : World -> outcome (option (A * generator A)) * World * list event).
Arguments Gen {A} resume.

(** [results.extend(g)]: the generator is drained into the list. *)
Fixpoint extend {A : Type} (results : list A) (g : generator A) : M (list A) :=
  match g with
  | Gen r =>
      fun w =>
        match r w with
        | (Return None, w1, t1) => (Return results, w1, t1)
        | (Return (Some (a, g')), w1, t1) =>
            match extend (results ++ [a]) g' w1 with
            | (res, w2, t2) => (res, w2, t1 ++ t2)
            end
        | (Raise e, w1, t1) => (Raise e, w1, t1)
        | (OutOfFuel, w1, t1) => (OutOfFuel, w1, t1)
        end
  end.

Notation "x <- m ;; k" := (bind m (fun x => k))
  (at level 61, m at next level, right associativity).
Notation "' p <- m ;; k" := (bind m (fun x => let 'p := x in k))
  (at level 61, p pattern, m at next level, right associativity).
Notation "m ;;; k" := (bind m (fun _ => k))
  (at level 61, right associativity).

(** *** The context managers *)

Variable lib : wrapper World.

(** [with zbar_image() as image: body(image)] *)
Definition zbar_image {A : Type} (body : handle -> M A) : M A :=
  image <- call (zbar_image_create lib) ImageCreate ;;
  if negb (truthy image) then
    raise (Exn PyZbarError (Literal "Could not create image"))
  else
    try_finally (body image)
                (call_ (zbar_image_destroy lib image) (ImageDestroy image)).

(** [with zbar_image_scanner() as scanner: body(scanner)] *)
Definition zbar_image_scanner {A : Type} (body : handle -> M A) : M A :=
  scanner <- call (zbar_image_scanner_create lib) ScannerCreate ;;
  if negb (truthy scanner) then
    raise (Exn PyZbarError (Literal "Could not create decoder"))
  else
    try_finally (body scanner)
                (call_ (zbar_image_scanner_destroy lib scanner)
                       (ScannerDestroy scanner)).

(** *** The generators *)

(** The [while symbol:] loop of [symbols_for_image], entered with the
    current [symbol]; [fuel] bounds the number of symbols yielded. *)
Fixpoint symbols_loop (fuel : nat) (symbol : handle)
  : M (option (handle * generator handle)) :=
  if truthy symbol then
    match fuel with
    | O => out_of_fuel
    | S fuel' =>
        ret (Some (symbol,
                   Gen (next <- call (zbar_symbol_next lib symbol)
                                     (SymbolNext symbol) ;;
                        symbols_loop fuel' next)))
    end
  else ret None.

Definition symbols_for_image (fuel : nat) (image : handle) : generator handle :=
  Gen (symbol <- call (zbar_image_first_symbol lib image) (FirstSymbol image) ;;
       symbols_loop fuel symbol).

(** [ZBarSymbol(code).name]: the member with that value, [ValueError] when
    there is none. *)
Definition ZBarSymbol_name (code : Z) : outcome string :=
  match find (fun member => snd member =? code) (ZBarSymbol lib) with
  | Some member => Return (fst member)
  | None => Raise (Exn ValueError
                     (Format "{0} is not a valid ZBarSymbol" (PyInt code)))
  end.

(** The body of the [for symbol in symbols:] loop of [decode_symbols], up
    to the value it yields. *)
Definition decode_symbol (symbol : handle) : M Decoded :=
  pointer <- call (zbar_symbol_get_data lib symbol) (GetData symbol) ;;
  data <- peek (string_at lib pointer) ;;
  code <- peek (contents_type lib symbol) ;;
  symbol_type <- lift (ZBarSymbol_name code) ;;
  size <- call (zbar_symbol_get_loc_size lib symbol) (GetLocSize symbol) ;;
  locations <- list_comp (range size) (fun index =>
    x <- call (zbar_symbol_get_loc_x lib symbol index) (GetLocX symbol index) ;;
    y <- call (zbar_symbol_get_loc_y lib symbol index) (GetLocY symbol index) ;;
    ret (x, y)) ;;
  rect <- lift (bounding_box_of_locations locations) ;;
  ret (mkDecoded data symbol_type rect).

Fixpoint decode_symbols (symbols : generator handle) : generator Decoded :=
  match symbols with
  | Gen r =>
      Gen (next <- r ;;
           match next with
           | None => ret None
           | Some (symbol, rest) =>
               decoded <- decode_symbol symbol ;;
               ret (Some (decoded, decode_symbols rest))
           end)
  end.

(** *** decode *)

Context {pil ndarray : Type} `{PILImage pil} `{NDArray ndarray}.

(** The order in which Python iterates over a set holding the given
    values; it is fixed by the hash table, not by the program. *)
Variable set_order : list Z -> list Z.

(** [set(ZBarSymbol).difference(symbols)] *)
Definition difference (universe symbols : list Z) : list Z :=
  filter (fun s => negb (existsb (Z.eqb s) symbols)) universe.

(** [if symbols:] — [None] and an empty sequence are falsy. *)
Definition wanted (symbols : option (list Z)) : list Z :=
  match symbols with
  | None => []
  | Some l => l
  end.

Definition decode (fuel : nat) (img : image pil ndarray)
           (symbols : option (list Z)) (scan_locations : bool)
  : M (list Decoded) :=
  '(pixels, width, height) <- lift (pixels_width_height img) ;;
  (* Compute bits-per-pixel *)
  bpp <- lift (int_truediv (8 * len pixels) (width * height)) ;;
  if negb (int_eq_float 8 bpp) then
    raise (Exn PyZbarError
               (Format "Unsupported bits-per-pixel [{0}]" (PyFloat bpp)))
  else
    let results := [] in
    zbar_image_scanner (fun scanner =>
      match wanted symbols with
      | [] => ret tt
      | _ :: _ =>
          (* Disable all but the symbols of interest *)
          let disable :=
            set_order (difference (map snd (ZBarSymbol lib)) (wanted symbols)) in
          for_each disable (fun symbol =>
            _ <- call (zbar_image_scanner_set_config lib scanner symbol
                                                     (CFG_ENABLE lib) 0)
                      (fun _ => SetConfig scanner symbol (CFG_ENABLE lib) 0) ;;
            ret tt) ;;;
          for_each (wanted symbols) (fun symbol =>
            _ <- call (zbar_image_scanner_set_config lib scanner symbol
                                                     (CFG_ENABLE lib) 1)
                      (fun _ => SetConfig scanner symbol (CFG_ENABLE lib) 1) ;;
            ret tt)
      end ;;;
      zbar_image (fun image =>
        call_ (zbar_image_set_format lib image FOURCC_L800)
              (SetFormat image FOURCC_L800) ;;;
        call_ (zbar_image_set_size lib image width height)
              (SetSize image width height) ;;;
        call_ (zbar_image_set_data lib image pixels (len pixels))
              (SetData image pixels (len pixels)) ;;;
        decoded <- call (zbar_scan_image lib scanner image)
                        (ScanImage scanner image) ;;
        if decoded <? 0 then
          raise (Exn PyZbarError (Literal "Unsupported image format"))
        else
          extend results (decode_symbols (symbols_for_image fuel image)))).
End Run.

Arguments ret {World A} a _.
Arguments raise {World A} e _.
Arguments out_of_fuel {World A} _.
Arguments bind {World A B} m k _.
Arguments lift {World A} o _.
Arguments call {World A} f ev _.
Arguments call_ {World} f ev _.
Arguments peek {World A} f _.
Arguments try_finally {World A} body cleanup _.
Arguments for_each {World A} xs body.
Arguments list_comp {World A B} xs f.
Arguments Gen {World A} resume.
Arguments zbar_image {World} lib {A} body.
Arguments zbar_image_scanner {World} lib {A} body.
Arguments decode {World} lib {pil ndarray _ _} set_order fuel img symbols scan_locations.
Arguments decode_symbol {World} lib symbol.
Arguments decode_symbols {World} lib symbols.
Arguments symbols_for_image {World} lib fuel image.
Arguments symbols_loop {World} lib fuel symbol.
Arguments extend {World A} results g.
Arguments ZBarSymbol_name {World} lib code.

(** ** A scripted engine

    An engine whose answers are fixed in advance: the handles its two create
    primitives give, the status of the scan, and the symbols it finds.  The
    [k]-th symbol has handle [k] (from 1) and its data lives at address [k]. *)

Module Script.
Record symbol : Type := {
  sym_data : bytes;
  sym_type : Z;
  sym_locations : list (Z * Z)
}.

Record engine : Type := {
  scanner : handle;
  img : handle;
  status : Z;
  found : list symbol
}.

Definition nth_symbol (e : engine) (h : handle) : option symbol :=
  if h <=? 0 then None else nth_error (found e) (Z.to_nat (h - 1)).

Definition location (e : engine) (h : handle) (index : Z) : Z * Z :=
  match nth_symbol e h with
  | Some s => nth (Z.to_nat index) (sym_locations s) (0, 0)
  | None => (0, 0)
  end.

(** The symbol types the scripted engine knows, as (name, value). *)
Definition members : list (string * Z) :=
  [("NONE", 0); ("PARTIAL", 1); ("EAN8", 8); ("UPCE", 9); ("ISBN10", 10);
   ("UPCA", 12); ("EAN13", 13); ("ISBN13", 14); ("I25", 25); ("CODE39", 39);
   ("PDF417", 57); ("QRCODE", 64); ("CODE128", 128)].

Definition lib : wrapper engine := {|
  zbar_image_scanner_create := fun e => (scanner e, e);
  zbar_image_scanner_destroy := fun _ e => e;
  zbar_image_scanner_set_config := fun _ _ _ _ e => (0, e);
  zbar_image_create := fun e => (img e, e);
  zbar_image_destroy := fun _ e => e;
  zbar_image_set_format := fun _ _ e => e;
  zbar_image_set_size := fun _ _ _ e => e;
  zbar_image_set_data := fun _ _ _ e => e;
  zbar_scan_image := fun _ _ e => (status e, e);
  zbar_image_first_symbol := fun _ e =>
    (match found e with [] => 0 | _ :: _ => 1 end, e);
  zbar_symbol_next := fun h e =>
    (if h <? len (found e) then h + 1 else 0, e);
  zbar_symbol_get_data := fun h e => (h, e);
  zbar_symbol_get_loc_size := fun h e =>
    (match nth_symbol e h with
     | Some s => len (sym_locations s)
     | None => 0
     end, e);
  zbar_symbol_get_loc_x := fun h index e => (fst (location e h index), e);
  zbar_symbol_get_loc_y := fun h index e => (snd (location e h index), e);
  string_at := fun pointer e =>
    match nth_symbol e pointer with
    | Some s => sym_data s
    | None => []
    end;
  contents_type := fun h e =>
    match nth_symbol e h with
    | Some s => sym_type s
    | None => 0
    end;
  CFG_ENABLE := 0;
  ZBarSymbol := members
|}.

(** Image objects reduced to what [decode] reads from them. *)
Record picture : Type := {
  mode : string;
  size : Z * Z;
  raw : bytes
}.

#[global] Instance picture_PIL : PILImage picture := {|
  pil_mode := mode;
  pil_convert := fun p m => {| mode := m; size := size p; raw := raw p |};
  pil_tobytes := raw;
  pil_size := size
|}.

Record array : Type := {
  shape : list Z;
  dtype : string;
  buffer : bytes
}.

#[global] Instance array_ND : NDArray array := {|
  nd_shape := shape;
  nd_first_channel := fun a =>
    {| shape := firstn 2 (shape a); dtype := dtype a; buffer := buffer a |};
  nd_dtype := dtype;
  nd_astype := fun a t => {| shape := shape a; dtype := t; buffer := buffer a |};
  nd_tobytes := fun a => Some (buffer a);
  nd_tostring := buffer
|}.

Definition input : Type := image picture array.

(** A buffer of [n] zero bytes. *)
Definition blank (n : nat) : bytes := repeat Byte.x00 n.

(** A set iterated in the order its elements were listed, each once. *)
Definition enum_order (l : list Z) : list Z := nodup Z.eq_dec l.

Definition run (e : engine) (i : input) (symbols : option (list Z)) :=
  decode lib enum_order 16 i symbols false e.

(** A QR code read at the four corners of the rectangle from (10,10) to
    (50,30), and a symbol reported without any scan point. *)
Definition qr : symbol := {|
  sym_data := [Byte.x68; Byte.x69];
  sym_type := 64;
  sym_locations := [(10, 10); (50, 10); (50, 30); (10, 30)]
|}.

Definition bare : symbol := {|
  sym_data := [Byte.x68; Byte.x69];
  sym_type := 64;
  sym_locations := []
|}.

Definition working : engine :=
  {| scanner := 7; img := 9; status := 1; found := [qr] |}.
Definition rejecting : engine :=
  {| scanner := 7; img := 9; status := -1; found := [] |}.
Definition without_scanner : engine :=
  {| scanner := 0; img := 9; status := 1; found := [qr] |}.
Definition without_image : engine :=
  {| scanner := 7; img := 0; status := 1; found := [qr] |}.
Definition blind : engine :=
  {| scanner := 7; img := 9; status := 0; found := [] |}.
Definition pointless : engine :=
  {| scanner := 7; img := 9; status := 1; found := [bare] |}.

(** A 4x3 image with one byte per pixel, and one with two. *)
Definition gray_4x3 : input := Triple (blank 12) 4 3.
Definition wide_4x3 : input := Triple (blank 24) 4 3.

(** A symbol whose type code is no value of the enum, and an engine that
    finds it. *)
Definition alien : symbol := {|
  sym_data := [Byte.x68; Byte.x69];
  sym_type := 999;
  sym_locations := [(10, 10); (50, 10)]
|}.

Definition puzzled : engine :=
  {| scanner := 7; img := 9; status := 1; found := [alien] |}.

(** The 4x3 image as a PIL image in mode L, as a 3x4 [uint8] array, as a
    flat array of 12 values, and an image without any column. *)
Definition gray_picture : input :=
  PIL_Image {| mode := "L"; size := (4, 3); raw := blank 12 |}.
Definition gray_array : array :=
  {| shape := [3; 4]; dtype := "uint8"; buffer := blank 12 |}.
Definition flat_array : array :=
  {| shape := [12]; dtype := "uint8"; buffer := blank 12 |}.
Definition empty_0x3 : input := Triple (blank 0) 0 3.
End Script.

(** ** Vocabulary of the properties *)

(** [m] is the least (greatest) element of [l]. *)
Definition is_min (l : list Z) (m : Z) : Prop :=
  In m l /\ forall x, In x l -> m <= x.

Definition is_max (l : list Z) (m : Z) : Prop :=
  In m l /\ forall x, In x l -> x <= m.

(** Kinds of trace entries. *)
Definition is_scanner_destroy (e : event) : bool :=
  match e with ScannerDestroy _ => true | _ => false end.

Definition is_image_destroy (e : event) : bool :=
  match e with ImageDestroy _ => true | _ => false end.

Definition is_config (e : event) : bool :=
  match e with SetConfig _ _ _ _ => true | _ => false end.

(** The calls made while one symbol is read and the next one is fetched. *)
Definition is_symbol_call (e : event) : bool :=
  match e with
  | SymbolNext _ _ | GetData _ _ | GetLocSize _ _
  | GetLocX _ _ _ | GetLocY _ _ _ => true
  | _ => false
  end.

Definition is_location_call (e : event) : bool :=
  match e with GetLocX _ _ _ | GetLocY _ _ _ => true | _ => false end.

(** A record whose [rect] is the box of some scan points. *)
Definition boxed (d : Decoded) : Prop :=
  exists locations,
    locations <> [] /\ bounding_box_of_locations locations = Return (rect d).

(** What is known of the order in which a set is iterated: each element of
    the set comes once. *)
Definition set_iteration (order : list Z -> list Z) : Prop :=
  forall l, NoDup (order l) /\ forall x, In x (order l) <-> In x l.

(** What [min] raises on an empty list. *)
Definition empty_sequence : exn :=
  Exn ValueError (Literal "min() arg is an empty sequence").

(** The four exceptions [decode] raises itself. *)
Definition unsupported_bpp (bpp : spec_float) : exn :=
  Exn PyZbarError (Format "Unsupported bits-per-pixel [{0}]" (PyFloat bpp)).
Definition no_decoder : exn := Exn PyZbarError (Literal "Could not create decoder").
Definition no_image : exn := Exn PyZbarError (Literal "Could not create image").
Definition unsupported_image : exn :=
  Exn PyZbarError (Literal "Unsupported image format").

(** The smallest box around two boxes. *)
Definition hull (r1 r2 : Rect) : Rect :=
  let l := Z.min (left r1) (left r2) in
  let t := Z.min (top r1) (top r2) in
  mkRect l t
         (Z.max (left r1 + width r1) (left r2 + width r2) - l)
         (Z.max (top r1 + height r1) (top r2 + height r2) - t).

(** A list of points moved by [(dx, dy)]. *)
Definition translate (dx dy : Z) (locations : list (Z * Z)) : list (Z * Z) :=
  map (fun p => (fst p + dx, snd p + dy)) locations.

(** The calls that fetch the points of a symbol, index by index, with the
    coordinates the engine answered. *)
Definition location_calls (symbol : handle) (indices : list Z)
           (locations : list (Z * Z)) : list event :=
  flat_map (fun il => [GetLocX symbol (fst il) (fst (snd il));
                       GetLocY symbol (fst il) (snd (snd il))])
           (combine indices locations).

(** The calls that walk a chain of symbols: each handle is the answer of
    the call before it, and a null answer ends the chain. *)
Fixpoint links (fetch : handle -> event) (chain : list handle) : list event :=
  match chain with
  | [] => [fetch 0]
  | h :: rest => fetch h :: links (SymbolNext h) rest
  end.

(** What the engine answered while one symbol was read: its handle, its
    data pointer and its scan points. *)
Record reading : Type := {
  read_symbol : handle;
  read_pointer : Z;
  read_locations : list (Z * Z)
}.

(** The symbol the walk is at: the first one still to be read, null when
    there is none. *)
Definition head_symbol (reads : list reading) : handle :=
  match reads with
  | [] => 0
  | r :: _ => read_symbol r
  end.

(** The calls made while the symbols are read one after the other: for each
    symbol its data pointer, its location count and its points, then the
    call that fetches the next symbol, which answers the symbol read next,
    or null after the last one. *)
Fixpoint reading_calls (reads : list reading) : list event :=
  match reads with
  | [] => []
  | r :: rest =>
      GetData (read_symbol r) (read_pointer r)
        :: GetLocSize (read_symbol r) (len (read_locations r))
        :: location_calls (read_symbol r) (range (len (read_locations r)))
                          (read_locations r)
        ++ SymbolNext (read_symbol r) (head_symbol rest)
        :: reading_calls rest
  end.

(** The rectangle spanned by the least and the greatest coordinates of a
    list of points. *)
Definition spans (locations : list (Z * Z)) (r : Rect) : Prop :=
  exists x_min x_max y_min y_max,
    is_min (map fst locations) x_min /\ is_max (map fst locations) x_max /\
    is_min (map snd locations) y_min /\ is_max (map snd locations) y_max /\
    r = mkRect x_min y_min (x_max - x_min) (y_max - y_min).

(** What a run holds of the engine. *)
Inductive resource : Type :=
| Scanner (h : handle)
| Image (h : handle).

(** The resources a trace acquires (a null handle is none), in order, and
    those it releases. *)
Definition acquired (t : list event) : list resource :=
  flat_map (fun e => match e with
                     | ScannerCreate h => if h =? 0 then [] else [Scanner h]
                     | ImageCreate h => if h =? 0 then [] else [Image h]
                     | _ => []
                     end) t.

Definition released (t : list event) : list resource :=
  flat_map (fun e => match e with
                     | ScannerDestroy h => [Scanner h]
                     | ImageDestroy h => [Image h]
                     | _ => []
                     end) t.


(** [m2] does whatever [m1] does, whenever [m1] finishes. *)
Definition refines {World A : Type} (m1 m2 : M World A) : Prop :=
  forall w res w' t, m1 w = (res, w', t) -> res <> OutOfFuel -> m2 w = (res, w', t).

(** *** The exit paths of [decode] once the bits-per-pixel check has passed

    Each path fixes the result and the whole trace of the call. *)

Section Paths.
Context {World : Type} (lib : wrapper World) (set_order : list Z -> list Z).

(** The configuration calls for a filter. *)
Definition config_calls (scanner : handle) (symbols : list Z) : list event :=
  match symbols with
  | [] => []
  | _ :: _ =>
      map (fun s => SetConfig scanner s (CFG_ENABLE lib) 0)
          (set_order (difference (map snd (ZBarSymbol lib)) symbols))
      ++ map (fun s => SetConfig scanner s (CFG_ENABLE lib) 1) symbols
  end.

(** The calls from the creation of the image to the scan. *)
Definition scan_calls (scanner image : handle) (pixels : bytes)
           (width height status : Z) : list event :=
  [ImageCreate image; SetFormat image FOURCC_L800; SetSize image width height;
   SetData image pixels (len pixels); ScanImage scanner image status].

Inductive engine_run (symbols : list Z) (pixels : bytes) (width height : Z)
  : outcome (list Decoded) -> list event -> Prop :=
| scanner_refused :
    engine_run symbols pixels width height
      (Raise no_decoder) [ScannerCreate 0]
| image_refused (scanner : handle) :
    scanner <> 0 ->
    engine_run symbols pixels width height
      (Raise no_image)
      (ScannerCreate scanner :: config_calls scanner symbols
         ++ [ImageCreate 0; ScannerDestroy scanner])
| scan_rejected (scanner image : handle) (status : Z) :
    scanner <> 0 -> image <> 0 -> status < 0 ->
    engine_run symbols pixels width height
      (Raise unsupported_image)
      (ScannerCreate scanner :: config_calls scanner symbols
         ++ scan_calls scanner image pixels width height status
         ++ [ImageDestroy image; ScannerDestroy scanner])
| extraction_ended (scanner image : handle) (status : Z) (first : handle)
                   (tl : list event) (res : outcome (list Decoded)) :
    scanner <> 0 -> image <> 0 -> 0 <= status ->
    Forall (fun e => is_symbol_call e = true) tl ->
    (first = 0 -> res = Return [] /\ tl = []) ->
    (forall ds, res = Return ds -> Forall boxed ds) ->
    (forall e, res = Raise e -> exn_type e = ValueError) ->
    (forall s, In (GetLocSize s 0) tl -> res = Raise empty_sequence) ->
    res <> OutOfFuel ->
    engine_run symbols pixels width height
      res
      (ScannerCreate scanner :: config_calls scanner symbols
         ++ scan_calls scanner image pixels width height status
         ++ FirstSymbol image first :: tl
         ++ [ImageDestroy image; ScannerDestroy scanner])
| extraction_unfinished (scanner image : handle) (status : Z) (first : handle)
                        (tl : list event) :
    scanner <> 0 -> image <> 0 -> 0 <= status -> first <> 0 ->
    Forall (fun e => is_symbol_call e = true) tl ->
    (forall s, ~ In (GetLocSize s 0) tl) ->
    engine_run symbols pixels width height
      OutOfFuel
      (ScannerCreate scanner :: config_calls scanner symbols
         ++ scan_calls scanner image pixels width height status
         ++ FirstSymbol image first :: tl).
End Paths.

(** The four corners of the rectangle from (10,10) to (50,30). *)
Definition corners : list (Z * Z) := [(10, 10); (50, 10); (50, 30); (10, 30)].

(** ** min, max and the bounding box *)

Lemma fold_min_is_min (xs : list Z) (x : Z) :
  is_min (x :: xs) (fold_left Z.min xs x).
Proof.
  revert x; induction xs as [|y ys IH]; intro x; simpl fold_left.
  - split; [now left | intros z [<-|[]]; lia].
  - destruct (IH (Z.min x y)) as [Hin Hle]. split.
    + destruct Hin as [E|Hin].
      * rewrite <- E. destruct (Z.min_spec x y) as [[_ ->]|[_ ->]];
          [now left | right; now left].
      * right; now right.
    + intros z [<-|[<-|Hz]].
      * specialize (Hle (Z.min x y) (or_introl eq_refl)); lia.
      * specialize (Hle (Z.min x y) (or_introl eq_refl)); lia.
      * apply Hle; now right.
Qed.

Lemma fold_max_is_max (xs : list Z) (x : Z) :
  is_max (x :: xs) (fold_left Z.max xs x).
Proof.
  revert x; induction xs as [|y ys IH]; intro x; simpl fold_left.
  - split; [now left | intros z [<-|[]]; lia].
  - destruct (IH (Z.max x y)) as [Hin Hle]. split.
    + destruct Hin as [E|Hin].
      * rewrite <- E. destruct (Z.max_spec x y) as [[_ ->]|[_ ->]];
          [right; now left | now left].
      * right; now right.
    + intros z [<-|[<-|Hz]].
      * specialize (Hle (Z.max x y) (or_introl eq_refl)); lia.
      * specialize (Hle (Z.max x y) (or_introl eq_refl)); lia.
      * apply Hle; now right.
Qed.

Lemma is_min_le_is_max (l : list Z) (lo hi : Z) :
  is_min l lo -> is_max l hi -> lo <= hi.
Proof. intros [Hin _] [_ Hle]. now apply Hle. Qed.

(** The box of a non-empty list, spelled out. *)
Lemma bounding_box_cons (p : Z * Z) (ps : list (Z * Z)) :
  bounding_box_of_locations (p :: ps) =
  Return (mkRect (fold_left Z.min (map fst ps) (fst p))
                 (fold_left Z.min (map snd ps) (snd p))
                 (fold_left Z.max (map fst ps) (fst p)
                  - fold_left Z.min (map fst ps) (fst p))
                 (fold_left Z.max (map snd ps) (snd p)
                  - fold_left Z.min (map snd ps) (snd p))).
Proof. reflexivity. Qed.

(** The box of a non-empty list of scan points: its left and top are the
    least x and the least y of the points, and its width and height are the
    greatest x and y minus those. *)
Lemma bounding_box_is_min_max (locations : list (Z * Z)) :
  locations <> [] ->
  exists x_min x_max y_min y_max,
    is_min (map fst locations) x_min /\ is_max (map fst locations) x_max /\
    is_min (map snd locations) y_min /\ is_max (map snd locations) y_max /\
    bounding_box_of_locations locations =
      Return (mkRect x_min y_min (x_max - x_min) (y_max - y_min)).
Proof.
  destruct locations as [|p ps]; [congruence|]. intros _.
  exists (fold_left Z.min (map fst ps) (fst p)),
         (fold_left Z.max (map fst ps) (fst p)),
         (fold_left Z.min (map snd ps) (snd p)),
         (fold_left Z.max (map snd ps) (snd p)).
  repeat split; try apply bounding_box_cons;
    try apply (fold_min_is_min (map fst ps) (fst p));
    try apply (fold_max_is_max (map fst ps) (fst p));
    try apply (fold_min_is_min (map snd ps) (snd p));
    try apply (fold_max_is_max (map snd ps) (snd p)).
Qed.

(** C9. The box of a non-empty list of scan points has a width and a
    height that are not negative. *)
Theorem bounding_box_nonnegative (locations : list (Z * Z)) :
  locations <> [] ->
  exists r, bounding_box_of_locations locations = Return r /\
            0 <= width r /\ 0 <= height r.
Proof.
  destruct locations as [|p ps]; [congruence|]. intros _.
  eexists. split; [apply bounding_box_cons|]. simpl.
  pose proof (is_min_le_is_max _ _ _ (fold_min_is_min (map fst ps) (fst p))
                                     (fold_max_is_max (map fst ps) (fst p))).
  pose proof (is_min_le_is_max _ _ _ (fold_min_is_min (map snd ps) (snd p))
                                     (fold_max_is_max (map snd ps) (snd p))).
  lia.
Qed.

Lemma bounding_box_nil :
  bounding_box_of_locations [] =
  Raise (Exn ValueError (Literal "min() arg is an empty sequence")).
Proof. reflexivity. Qed.

(** ** Bits per pixel of one-byte and two-byte pixels *)

Lemma div_eucl_exact (a b q : Z) :
  b <> 0 -> a = q * b -> Z.div_eucl a b = (q, 0).
Proof.
  intros B ->.
  pose proof (Z.div_mul q b B) as D. pose proof (Z.mod_mul q b B) as R.
  unfold Z.div, Z.modulo in *. destruct (Z.div_eucl (q * b) b) as [q' r'].
  now subst.
Qed.

Lemma new_location_exact (n : Z) : new_location n 0 = loc_Exact.
Proof.
  unfold new_location, new_location_even, new_location_odd.
  now destruct (Z.even n).
Qed.

Lemma SFdiv_eight (n : positive) :
  SFdiv prec emax (S754_finite false (n~0~0~0) 0) (S754_finite false n 0) = eight.
Proof.
  unfold SFdiv, SFdiv_core_binary.
  replace (Zdigits2 (Z.pos n~0~0~0) + 0 - (Zdigits2 (Z.pos n) + 0)) with 3
    by (simpl Zdigits2; lia).
  change (Z.min (fexp prec emax 3) (0 - 0)) with (-50).
  change (0 - 0 - -50) with 50.
  rewrite (div_eucl_exact _ _ (2 ^ 53)).
  - rewrite new_location_exact. vm_compute. reflexivity.
  - discriminate.
  - rewrite Z.shiftl_mul_pow2 by lia.
    change (Z.pos n~0~0~0) with (8 * Z.pos n). lia.
Qed.

Lemma SFdiv_sixteen (n : positive) :
  SFdiv prec emax (S754_finite false (n~0~0~0~0) 0) (S754_finite false n 0)
  = sixteen.
Proof.
  unfold SFdiv, SFdiv_core_binary.
  replace (Zdigits2 (Z.pos n~0~0~0~0) + 0 - (Zdigits2 (Z.pos n) + 0)) with 4
    by (simpl Zdigits2; lia).
  change (Z.min (fexp prec emax 4) (0 - 0)) with (-49).
  change (0 - 0 - -49) with 49.
  rewrite (div_eucl_exact _ _ (2 ^ 53)).
  - rewrite new_location_exact. vm_compute. reflexivity.
  - discriminate.
  - rewrite Z.shiftl_mul_pow2 by lia.
    change (Z.pos n~0~0~0~0) with (16 * Z.pos n). lia.
Qed.

(** One byte per pixel gives exactly 8.0, which passes the check. *)
Lemma int_truediv_one_byte (n : Z) :
  0 < n -> int_truediv (8 * n) n = Return eight /\ int_eq_float 8 eight = true.
Proof.
  intro P. split; [|reflexivity]. destruct n as [|p|p]; try lia.
  unfold int_truediv. change (Z.pos p =? 0) with false. cbv iota.
  change (float_of_int (8 * Z.pos p)) with (S754_finite false (p~0~0~0) 0).
  change (float_of_int (Z.pos p)) with (S754_finite false p 0).
  now rewrite SFdiv_eight.
Qed.

(** Two bytes per pixel give exactly 16.0, which does not. *)
Lemma int_truediv_two_bytes (n : Z) :
  0 < n ->
  int_truediv (8 * (n * 2)) n = Return sixteen /\ int_eq_float 8 sixteen = false.
Proof.
  intro P. split; [|reflexivity]. destruct n as [|p|p]; try lia.
  unfold int_truediv. change (Z.pos p =? 0) with false. cbv iota.
  change (float_of_int (8 * (Z.pos p * 2)))
    with (float_of_int (Z.pos (Pos.mul p 2)~0~0~0)).
  rewrite (Pos.mul_comm p 2).
  change (float_of_int (Z.pos (2 * p)~0~0~0)) with (S754_finite false (p~0~0~0~0) 0).
  change (float_of_int (Z.pos p)) with (S754_finite false p 0).
  now rewrite SFdiv_sixteen.
Qed.

(** The quotient is rounded before it is compared: from 2^53 pixels on, a
    surplus byte can go unnoticed. *)
Example surplus_byte_rounded_away :
  int_truediv (8 * (2 ^ 53 + 1)) (2 ^ 53) = Return eight.
Proof. vm_compute. reflexivity. Qed.

(** ** Laws of running *)

Section Laws.
Context {World : Type}.

Lemma bind_Return {A B : Type} (m : M World A) (k : A -> M World B)
      (w w1 w2 : World) (a : A) (r : outcome B) (t1 t2 : list event) :
  m w = (Return a, w1, t1) -> k a w1 = (r, w2, t2) ->
  bind m k w = (r, w2, t1 ++ t2).
Proof. intros E1 E2. unfold bind. now rewrite E1, E2. Qed.

Lemma bind_Raise {A B : Type} (m : M World A) (k : A -> M World B)
      (w w1 : World) (e : exn) (t1 : list event) :
  m w = (Raise e, w1, t1) -> bind m k w = (Raise e, w1, t1).
Proof. intros E1. unfold bind. now rewrite E1. Qed.

(** A run of [m >>= k] is a run of [m] that returned followed by a run of
    [k], or a run of [m] that did not return. *)
Lemma bind_inv {A B : Type} (m : M World A) (k : A -> M World B)
      (w w' : World) (res : outcome B) (t : list event) :
  bind m k w = (res, w', t) ->
  (exists a w1 t1 t2,
      m w = (Return a, w1, t1) /\ k a w1 = (res, w', t2) /\ t = t1 ++ t2)
  \/ (exists e, m w = (Raise e, w', t) /\ res = Raise e)
  \/ (m w = (OutOfFuel, w', t) /\ res = OutOfFuel).
Proof.
  unfold bind. destruct (m w) as [[[a|e|] w1] t1].
  - destruct (k a w1) as [[r w2] t2] eqn:K. intro E; inversion E; subst.
    left. now exists a, w1, t1, t2.
  - intro E; inversion E; subst. right; left. now exists e.
  - intro E; inversion E; subst. right; right. now split.
Qed.

Lemma call_inv {A : Type} (f : World -> A * World) (ev : A -> event)
      (w w' : World) (res : outcome A) (t : list event) :
  call f ev w = (res, w', t) ->
  exists a, f w = (a, w') /\ res = Return a /\ t = [ev a].
Proof.
  unfold call. destruct (f w) as [a w1]. intro E; inversion E; subst.
  now exists a.
Qed.

Lemma call_run {A : Type} (f : World -> A * World) (ev : A -> event)
      (w w1 : World) (a : A) :
  f w = (a, w1) -> call f ev w = (Return a, w1, [ev a]).
Proof. intro E. unfold call. now rewrite E. Qed.

Lemma call__inv (f : World -> World) (ev : event)
      (w w' : World) (res : outcome unit) (t : list event) :
  call_ f ev w = (res, w', t) -> res = Return tt /\ w' = f w /\ t = [ev].
Proof. unfold call_. intro E; inversion E; subst. auto. Qed.

(** A run of [try: body finally: destroy(handle)]: the destroy call ends
    the trace of every body that finished, however it finished. *)
Lemma try_finally_inv {A : Type} (body : M World A) (f : World -> World)
      (ev : event) (w w' : World) (res : outcome A) (t : list event) :
  try_finally body (call_ f ev) w = (res, w', t) ->
  (body w = (OutOfFuel, w', t) /\ res = OutOfFuel)
  \/ (exists w1 t1,
         body w = (res, w1, t1) /\ res <> OutOfFuel /\ w' = f w1 /\
         t = t1 ++ [ev]).
Proof.
  unfold try_finally, call_. destruct (body w) as [[[a|e|] w1] t1];
    intro E; inversion E; subst.
  - right. exists w1, t1. repeat split; auto; discriminate.
  - right. exists w1, t1. repeat split; auto; discriminate.
  - left. auto.
Qed.

(** A loop whose body always returns, making one call, returns, and its
    trace lists the calls in the order of the elements. *)
Lemma for_each_run {A : Type} (body : A -> M World unit) (ev : A -> event)
      (xs : list A) :
  (forall x w, exists w', body x w = (Return tt, w', [ev x])) ->
  forall w, exists w', for_each xs body w = (Return tt, w', map ev xs).
Proof.
  intros Hbody. induction xs as [|x rest IH]; intro w.
  - now exists w.
  - destruct (Hbody x w) as [w1 E1]. destruct (IH w1) as [w2 E2].
    exists w2. simpl for_each. now rewrite (bind_Return _ _ _ _ _ _ _ _ _ E1 E2).
Qed.
End Laws.

(** ** Runs of the extraction *)

Section Extraction.
Context {World : Type} (lib : wrapper World).

Lemma location_calls_symbol_calls (t : list event) :
  Forall (fun e => is_location_call e = true) t ->
  Forall (fun e => is_symbol_call e = true) t.
Proof.
  apply Forall_impl. intros [] E; simpl in *; congruence.
Qed.

(** The list comprehension of [decode_symbols] always completes, with one
    point per index and nothing but location calls. *)
Lemma locations_run (symbol : handle) (indices : list Z) (w : World) :
  exists locations w' t,
    list_comp indices
      (fun index =>
         bind (call (zbar_symbol_get_loc_x lib symbol index) (GetLocX symbol index))
           (fun x =>
              bind (call (zbar_symbol_get_loc_y lib symbol index)
                         (GetLocY symbol index))
                (fun y => ret (x, y)))) w
    = (Return locations, w', t) /\
    List.length locations = List.length indices /\
    Forall (fun e => is_location_call e = true) t.
Proof.
  revert w; induction indices as [|i rest IH]; intro w.
  - exists [], w, []. repeat split; constructor.
  - destruct (zbar_symbol_get_loc_x lib symbol i w) as [x w1] eqn:X.
    destruct (zbar_symbol_get_loc_y lib symbol i w1) as [y w2] eqn:Y.
    destruct (IH w2) as (locations & w' & t & E & L & F).
    exists ((x, y) :: locations), w'. eexists. split; [|split].
    + simpl list_comp.
      eapply bind_Return.
      * eapply bind_Return; [apply call_run, X|].
        eapply bind_Return; [apply call_run, Y|].
        reflexivity.
      * eapply bind_Return; [exact E | reflexivity].
    + simpl; congruence.
    + simpl. repeat constructor. rewrite app_nil_r. exact F.
Qed.

(** What reading one symbol does: the data pointer is fetched, the type
    code is looked up in the enum, the points are fetched, and the box is
    computed from them. *)
Lemma decode_symbol_run (symbol : handle) (w w' : World)
      (res : outcome Decoded) (t : list event) :
  decode_symbol lib symbol w = (res, w', t) ->
  exists pointer w1,
    zbar_symbol_get_data lib symbol w = (pointer, w1) /\
    ((exists e, ZBarSymbol_name lib (contents_type lib symbol w1) = Raise e /\
                res = Raise e /\ t = [GetData symbol pointer])
     \/
     (exists name size locations tl,
         ZBarSymbol_name lib (contents_type lib symbol w1) = Return name /\
         t = GetData symbol pointer :: GetLocSize symbol size :: tl /\
         Forall (fun e => is_location_call e = true) tl /\
         List.length locations = Z.to_nat size /\
         res = and_then (bounding_box_of_locations locations)
                 (fun rect => Return (mkDecoded (string_at lib pointer w1)
                                                name rect)))).
Proof.
  unfold decode_symbol. intro E.
  apply bind_inv in E.
  destruct E as [(pointer & w1 & t1 & t2 & C & E & ->)|[(e & C & _)|[C _]]];
    apply call_inv in C; destruct C as (a & C & R & T); try discriminate.
  inversion R; subst a t1. exists pointer, w1. split; [exact C|].
  unfold bind at 1 2 3 in E. unfold peek, lift in E.
  destruct (ZBarSymbol_name lib (contents_type lib symbol w1)) as [name|e|] eqn:N.
  - right. simpl in E.
    destruct (bind _ _ w1) as [[r w2] t3] eqn:B in E. inversion E; subst; clear E.
    apply bind_inv in B.
    destruct B as [(size & w3 & ta & tb & C2 & E & ->)|[(e & C2 & _)|[C2 _]]];
      apply call_inv in C2; destruct C2 as (a & C2 & R2 & T2); try discriminate.
    inversion R2; subst a ta.
    destruct (locations_run symbol (range size) w3)
      as (locations & w4 & tl & EL & L & F).
    apply bind_inv in E.
    destruct E as [(l' & w5 & tc & td & E1 & E & ->)|[(e & E1 & _)|[E1 _]]];
      rewrite EL in E1; try discriminate.
    inversion E1; subst l' w5 tc.
    exists name, size, locations, tl. split; [reflexivity|].
    unfold range in L. rewrite length_map, length_seq in L.
    unfold bind, lift, ret in E.
    destruct (bounding_box_of_locations locations) as [r| |];
      simpl in E; inversion E; subst; clear E;
      rewrite ?app_nil_r; repeat split; auto.
  - left. exists e. simpl in E. inversion E; subst. auto.
  - exfalso. unfold ZBarSymbol_name in N.
    destruct (find _ _); discriminate.
Qed.

Lemma decode_symbol_calls (symbol : handle) (w w' : World)
      (res : outcome Decoded) (t : list event) :
  decode_symbol lib symbol w = (res, w', t) ->
  Forall (fun e => is_symbol_call e = true) t.
Proof.
  intro E. destruct (decode_symbol_run _ _ _ _ _ E)
    as (pointer & w1 & _ & [(e & _ & _ & ->)|(n & s & l & tl & _ & -> & F & _)]).
  - repeat constructor.
  - repeat constructor. now apply location_calls_symbol_calls.
Qed.

Lemma ZBarSymbol_name_raises (code : Z) (e : exn) :
  ZBarSymbol_name lib code = Raise e -> exn_type e = ValueError.
Proof.
  unfold ZBarSymbol_name. destruct (find _ _); intro E; inversion E.
  reflexivity.
Qed.

Lemma decode_symbol_raises (symbol : handle) (w w' : World)
      (e : exn) (t : list event) :
  decode_symbol lib symbol w = (Raise e, w', t) -> exn_type e = ValueError.
Proof.
  intro E. destruct (decode_symbol_run _ _ _ _ _ E)
    as (pointer & w1 & _ & [(e' & N & R & _)|(n & s & l & tl & _ & _ & _ & _ & R)]).
  - inversion R; subst. exact (ZBarSymbol_name_raises _ _ N).
  - destruct l as [|p ps].
    + rewrite bounding_box_nil in R. simpl in R. inversion R. reflexivity.
    + rewrite bounding_box_cons in R. simpl in R. discriminate.
Qed.

(** A symbol reported with no scan point: [min] is given an empty list. *)
Lemma decode_symbol_empty (symbol s : handle) (w w' : World)
      (res : outcome Decoded) (t : list event) :
  decode_symbol lib symbol w = (res, w', t) ->
  In (GetLocSize s 0) t -> res = Raise empty_sequence.
Proof.
  intros E I. destruct (decode_symbol_run _ _ _ _ _ E)
    as (pointer & w1 & _ &
        [(e & _ & _ & ->)|(n & size & l & tl & _ & -> & F & L & ->)]).
  - destruct I as [I|[]]. discriminate.
  - destruct I as [I|[I|I]]; try discriminate.
    + inversion I; subst. destruct l; [reflexivity | discriminate].
    + rewrite Forall_forall in F. apply F in I. discriminate.
Qed.

Lemma decode_symbol_boxed (symbol : handle) (w w' : World)
      (d : Decoded) (t : list event) :
  decode_symbol lib symbol w = (Return d, w', t) -> boxed d.
Proof.
  intro E. destruct (decode_symbol_run _ _ _ _ _ E)
    as (pointer & w1 & _ & [(e & _ & R & _)|(n & s & l & tl & _ & _ & _ & _ & R)]).
  - discriminate.
  - destruct l as [|p ps]; [discriminate|].
    exists (p :: ps). split; [discriminate|].
    rewrite bounding_box_cons in *. simpl in R. inversion R. reflexivity.
Qed.
End Extraction.

Section Drain.
Context {World : Type} (lib : wrapper World).

Lemma extend_inv {A : Type} (results : list A)
      (r : M World (option (A * generator World A)))
      (w w' : World) (res : outcome (list A)) (t : list event) :
  extend results (Gen r) w = (res, w', t) ->
  (r w = (Return None, w', t) /\ res = Return results)
  \/ (exists a g w1 t1 t2,
         r w = (Return (Some (a, g)), w1, t1) /\
         extend (results ++ [a]) g w1 = (res, w', t2) /\ t = t1 ++ t2)
  \/ (exists e, r w = (Raise e, w', t) /\ res = Raise e)
  \/ (r w = (OutOfFuel, w', t) /\ res = OutOfFuel).
Proof.
  simpl. destruct (r w) as [[[[[a g]|]|e|] w1] t1].
  - destruct (extend (results ++ [a]) g w1) as [[r2 w2] t2] eqn:E.
    intro X; inversion X; subst. right; left. now exists a, g, w1, t1, t2.
  - intro X; inversion X; subst. now left.
  - intro X; inversion X; subst. right; right; left. now exists e.
  - intro X; inversion X; subst. right; right; right. now split.
Qed.

(** One step of [symbols_for_image]: the call that fetches the current
    symbol, then a yield unless the symbol is null. *)
Lemma symbols_step (fuel : nat) (f : World -> handle * World)
      (ev : handle -> event) (w : World) :
  bind (call f ev) (fun s => symbols_loop lib fuel s) w =
  let '(s, w1) := f w in
  if s =? 0 then (Return None, w1, [ev s])
  else
    match fuel with
    | O => (OutOfFuel, w1, [ev s])
    | S fuel' =>
        (Return (Some (s, Gen (bind (call (zbar_symbol_next lib s) (SymbolNext s))
                                    (fun next => symbols_loop lib fuel' next)))),
         w1, [ev s])
    end.
Proof.
  unfold bind at 1, call at 1. destruct (f w) as [s w1].
  destruct fuel; simpl; unfold truthy; destruct (s =? 0); reflexivity.
Qed.

(** One turn of [results.extend(decode_symbols(symbols_for_image(img)))]:
    the current symbol is fetched; unless it is null it is decoded, added
    to the results, and the loop goes on from its successor. *)
Lemma extend_step (fuel : nat) (f : World -> handle * World)
      (ev : handle -> event) (results : list Decoded) (w : World) :
  extend results
         (decode_symbols lib
            (Gen (bind (call f ev) (fun s => symbols_loop lib fuel s)))) w =
  let '(s, w1) := f w in
  if s =? 0 then (Return results, w1, [ev s])
  else
    match fuel with
    | O => (OutOfFuel, w1, [ev s])
    | S fuel' =>
        match decode_symbol lib s w1 with
        | (Return d, w2, t2) =>
            let '(res, w3, t3) :=
              extend (results ++ [d])
                (decode_symbols lib
                   (Gen (bind (call (zbar_symbol_next lib s) (SymbolNext s))
                              (fun next => symbols_loop lib fuel' next)))) w2 in
            (res, w3, ev s :: t2 ++ t3)
        | (Raise e, w2, t2) => (Raise e, w2, ev s :: t2)
        | (OutOfFuel, w2, t2) => (OutOfFuel, w2, ev s :: t2)
        end
    end.
Proof.
  match goal with |- _ = ?R => remember R as rhs eqn:HR end.
  cbn [extend decode_symbols]. unfold bind at 1. rewrite symbols_step.
  subst rhs. destruct (f w) as [s w1]. destruct (s =? 0); [reflexivity|].
  destruct fuel as [|fuel']; [reflexivity|].
  unfold bind at 1.
  destruct (decode_symbol lib s w1) as [[[d|e|] w2] t2]; try reflexivity.
  unfold ret at 1.
  destruct (extend (results ++ [d]) _ w2) as [[res w3] t3].
  cbn [app]. rewrite app_nil_r. reflexivity.
Qed.

(** Draining the decoded symbols: the trace opens with the call that
    fetched the current symbol and goes on with symbol calls only; a null
    symbol ends the loop at once; every record added has a box. *)
Lemma extend_decode_symbols_run (fuel : nat) :
  forall (f : World -> handle * World) (ev : handle -> event)
         (results : list Decoded) (w w' : World)
         (res : outcome (list Decoded)) (t : list event),
    extend results
           (decode_symbols lib
              (Gen (bind (call f ev) (fun s => symbols_loop lib fuel s)))) w
    = (res, w', t) ->
    exists tl,
      t = ev (fst (f w)) :: tl /\
      Forall (fun e => is_symbol_call e = true) tl /\
      (fst (f w) = 0 -> res = Return results /\ tl = []) /\
      (res = OutOfFuel -> fst (f w) <> 0) /\
      (forall e, res = Raise e -> exn_type e = ValueError) /\
      (forall s, In (GetLocSize s 0) tl -> res = Raise empty_sequence) /\
      (forall ds, res = Return ds ->
                  exists added, ds = results ++ added /\ Forall boxed added).
Proof.
  induction fuel as [|fuel IH]; intros f ev results w w' res t;
    rewrite extend_step; destruct (f w) as [s w1]; cbn [fst];
    destruct (Z.eqb_spec s 0) as [Z0|Z0].
  - intro E; inversion E; subst. exists [].
    repeat split; auto; try discriminate; try (now intros ? []).
    intros ds X; inversion X; subst. exists []. now rewrite app_nil_r.
  - intro E; inversion E; subst. exists [].
    repeat split; auto; try discriminate; try contradiction;
      try (now intros ? []).
  - intro E; inversion E; subst. exists [].
    repeat split; auto; try discriminate; try (now intros ? []).
    intros ds X; inversion X; subst. exists []. now rewrite app_nil_r.
  - destruct (decode_symbol lib s w1) as [[[d|e|] w2] t2] eqn:D;
      pose proof (decode_symbol_calls _ _ _ _ _ _ D) as FD.
    + destruct (extend _ _ w2) as [[res' w3] t3] eqn:X.
      intro E; inversion E; subst; clear E.
      apply IH in X. destruct X as (tl & -> & F & _ & _ & Rs & Em & Box).
      eexists. split; [reflexivity|].
      split; [|split; [|split; [|split; [|split]]]].
      * apply Forall_app. split; [exact FD|].
        constructor; [reflexivity | exact F].
      * intro; contradiction.
      * intros _. exact Z0.
      * exact Rs.
      * intros s0 I. apply in_app_or in I. destruct I as [I|[I|I]].
        -- pose proof (decode_symbol_empty _ _ _ _ _ _ _ D I). discriminate.
        -- discriminate.
        -- now apply (Em s0).
      * intros ds Y. destruct (Box ds Y) as (added & -> & FB).
        exists (d :: added). rewrite <- app_assoc. split; [reflexivity|].
        constructor; [|assumption].
        now apply (decode_symbol_boxed _ _ _ _ _ _ D).
    + intro E; inversion E; subst. exists t2.
      repeat split; auto; try discriminate; try contradiction.
      * intros e' X; inversion X; subst.
        exact (decode_symbol_raises _ _ _ _ _ _ D).
      * intros s0 I.
        pose proof (decode_symbol_empty _ _ _ _ _ _ _ D I) as X.
        inversion X. reflexivity.
    + intro E; inversion E; subst. exists t2.
      repeat split; auto; try discriminate; try contradiction.
      intros s0 I.
      pose proof (decode_symbol_empty _ _ _ _ _ _ _ D I). discriminate.
Qed.
End Drain.

(** ** Runs of [decode] *)

Section Decode.
Context {World : Type} (lib : wrapper World).
Context {pil ndarray : Type} `{PILImage pil} `{NDArray ndarray}.
Variable set_order : list Z -> list Z.

Ltac invert_bind E a w t1 t2 L :=
  apply bind_inv in E;
  destruct E as [(a & w & t1 & t2 & L & E & ->)|[(? & L & ?)|[L ?]]].

(** The configuration block always completes, with exactly the calls of
    [config_calls]. *)
Lemma configure_run (scanner : handle) (value : Z) (xs : list Z) (w : World) :
  exists w',
    for_each xs (fun symbol =>
      bind (call (zbar_image_scanner_set_config lib scanner symbol
                                                (CFG_ENABLE lib) value)
                 (fun _ => SetConfig scanner symbol (CFG_ENABLE lib) value))
           (fun _ => ret tt)) w
    = (Return tt, w',
       map (fun s => SetConfig scanner s (CFG_ENABLE lib) value) xs).
Proof.
  apply for_each_run. intros x w0.
  destruct (zbar_image_scanner_set_config lib scanner x (CFG_ENABLE lib) value w0)
    as [r w1] eqn:C.
  exists w1. unfold bind, call. rewrite C. reflexivity.
Qed.

Lemma config_block_run (scanner : handle) (symbols : option (list Z))
      (w : World) :
  exists w',
    match wanted symbols with
    | [] => ret tt
    | _ :: _ =>
        bind
          (for_each
             (set_order (difference (map snd (ZBarSymbol lib)) (wanted symbols)))
             (fun symbol =>
                bind (call (zbar_image_scanner_set_config lib scanner symbol
                                                          (CFG_ENABLE lib) 0)
                           (fun _ => SetConfig scanner symbol (CFG_ENABLE lib) 0))
                     (fun _ => ret tt)))
          (fun _ =>
             for_each (wanted symbols)
               (fun symbol =>
                  bind (call (zbar_image_scanner_set_config lib scanner symbol
                                                            (CFG_ENABLE lib) 1)
                             (fun _ => SetConfig scanner symbol (CFG_ENABLE lib) 1))
                       (fun _ => ret tt)))
    end w
    = (Return tt, w', config_calls lib set_order scanner (wanted symbols)).
Proof.
  unfold config_calls. destruct (wanted symbols) as [|s l].
  - now exists w.
  - destruct (configure_run scanner 0
                (set_order (difference (map snd (ZBarSymbol lib)) (s :: l))) w)
      as [w1 E1].
    destruct (configure_run scanner 1 (s :: l) w1) as [w2 E2].
    exists w2. exact (bind_Return _ _ _ _ _ _ _ _ _ E1 E2).
Qed.

(** The body of [with zbar_image() as img:]: the image is bound to the
    pixels and scanned; a negative status raises, any other status starts
    the extraction. *)
Lemma scan_block_run (fuel : nat) (scanner image : handle) (pixels : bytes)
      (width height : Z) (w w' : World) (res : outcome (list Decoded))
      (t : list event) :
  bind (call_ (zbar_image_set_format lib image FOURCC_L800)
              (SetFormat image FOURCC_L800))
    (fun _ =>
     bind (call_ (zbar_image_set_size lib image width height)
                 (SetSize image width height))
       (fun _ =>
        bind (call_ (zbar_image_set_data lib image pixels (len pixels))
                    (SetData image pixels (len pixels)))
          (fun _ =>
           bind (call (zbar_scan_image lib scanner image)
                      (ScanImage scanner image))
             (fun decoded =>
              if decoded <? 0
              then raise (Exn PyZbarError (Literal "Unsupported image format"))
              else extend []
                     (decode_symbols lib (symbols_for_image lib fuel image))))))
    w = (res, w', t) ->
  exists status tl,
    t = [SetFormat image FOURCC_L800; SetSize image width height;
         SetData image pixels (len pixels); ScanImage scanner image status]
        ++ tl /\
    ((status < 0 /\ res = Raise unsupported_image /\ tl = [])
     \/ (0 <= status /\
         exists first tl',
           tl = FirstSymbol image first :: tl' /\
           Forall (fun e => is_symbol_call e = true) tl' /\
           (first = 0 -> res = Return [] /\ tl' = []) /\
           (res = OutOfFuel -> first <> 0) /\
           (forall e, res = Raise e -> exn_type e = ValueError) /\
           (forall s, In (GetLocSize s 0) tl' -> res = Raise empty_sequence) /\
           (forall ds, res = Return ds -> Forall boxed ds))).
Proof.
  intro E.
  invert_bind E u1 w1 t1 t2 L; apply call__inv in L;
    destruct L as (R & -> & ->); try discriminate.
  invert_bind E u2 w2 t3 t4 L; apply call__inv in L;
    destruct L as (R2 & -> & ->); try discriminate.
  invert_bind E u3 w3 t5 t6 L; apply call__inv in L;
    destruct L as (R3 & -> & ->); try discriminate.
  invert_bind E status w4 t7 t8 L; apply call_inv in L;
    destruct L as (a & C & R4 & ->); try discriminate.
  inversion R4; subst a; clear R4.
  exists status, t8. split; [reflexivity|].
  destruct (Z.ltb_spec status 0) as [Neg|Pos].
  - left. unfold raise in E. inversion E; subst. auto.
  - right. split; [exact Pos|].
    unfold symbols_for_image in E.
    apply extend_decode_symbols_run in E.
    destruct E as (tl & -> & F & Z0 & OF & Rs & Em & Box).
    eexists _, tl. split; [reflexivity|]. repeat split; auto.
    + now apply Z0.
    + now apply Z0.
    + intros ds X. destruct (Box ds X) as (added & -> & FB). exact FB.
Qed.

(** Past the bits-per-pixel check, a call of [decode] follows one of the
    exit paths of [engine_run]. *)
Lemma decode_engine_run (fuel : nat) (img : image pil ndarray)
      (symbols : option (list Z)) (scan_locations : bool)
      (w w' : World) (res : outcome (list Decoded)) (tr : list event)
      (pixels : bytes) (width height : Z) (bpp : spec_float) :
  pixels_width_height img = Return (pixels, width, height) ->
  int_truediv (8 * len pixels) (width * height) = Return bpp ->
  int_eq_float 8 bpp = true ->
  decode lib set_order fuel img symbols scan_locations w = (res, w', tr) ->
  engine_run lib set_order (wanted symbols) pixels width height res tr.
Proof.
  intros P D B E. unfold decode in E.
  invert_bind E a w1 t1 t2 L; unfold lift in L; rewrite P in L;
    try discriminate.
  inversion L; subst a w1 t1; clear L. cbv beta iota in E.
  invert_bind E a w1 t1 t3 L; unfold lift in L; rewrite D in L;
    try discriminate.
  inversion L; subst a w1 t1; clear L. rewrite B in E. cbn [negb app] in E.
  unfold zbar_image_scanner in E.
  invert_bind E scanner w1 t1 t4 L;
    apply call_inv in L; destruct L as (a & C & R & T); try discriminate.
  inversion R; subst a t1; clear R C.
  unfold truthy in E. rewrite negb_involutive in E.
  destruct (Z.eqb_spec scanner 0) as [->|Sc].
  { unfold raise in E. inversion E; subst. constructor. }
  (* inside [with zbar_image_scanner() as scanner:] *)
  assert (exists w2 t5,
    bind
      match wanted symbols with
      | [] => ret tt
      | _ :: _ =>
          bind
            (for_each
               (set_order (difference (map snd (ZBarSymbol lib)) (wanted symbols)))
               (fun symbol =>
                  bind (call (zbar_image_scanner_set_config lib scanner symbol
                                                            (CFG_ENABLE lib) 0)
                             (fun _ => SetConfig scanner symbol (CFG_ENABLE lib) 0))
                       (fun _ => ret tt)))
            (fun _ =>
               for_each (wanted symbols)
                 (fun symbol =>
                    bind (call (zbar_image_scanner_set_config lib scanner symbol
                                                              (CFG_ENABLE lib) 1)
                               (fun _ => SetConfig scanner symbol (CFG_ENABLE lib) 1))
                         (fun _ => ret tt)))
      end
      (fun _ =>
       zbar_image lib
         (fun image =>
          bind (call_ (zbar_image_set_format lib image FOURCC_L800)
                      (SetFormat image FOURCC_L800))
            (fun _ =>
             bind (call_ (zbar_image_set_size lib image width height)
                         (SetSize image width height))
               (fun _ =>
                bind (call_ (zbar_image_set_data lib image pixels (len pixels))
                            (SetData image pixels (len pixels)))
                  (fun _ =>
                   bind (call (zbar_scan_image lib scanner image)
                              (ScanImage scanner image))
                     (fun decoded =>
                      if decoded <? 0
                      then raise (Exn PyZbarError
                                      (Literal "Unsupported image format"))
                      else extend []
                             (decode_symbols lib
                                (symbols_for_image lib fuel image))))))))
      w1 = (res, w2, t5) /\
    (res = OutOfFuel -> t4 = t5) /\ (res <> OutOfFuel ->
                                     t4 = t5 ++ [ScannerDestroy scanner]))
    as (w2 & t5 & Body & TOF & TFin).
  { apply try_finally_inv in E.
    destruct E as [[E ->]|(w2 & t5 & E & NF & -> & ->)].
    - exists w', t4. repeat split; auto. congruence.
    - exists w2, t5. repeat split; auto. congruence. }
  clear E.
  invert_bind Body u w3 t6 t7 L;
    destruct (config_block_run scanner symbols w1) as [w4 C];
    rewrite C in L; try discriminate.
  inversion L; subst u w3 t6; clear L C.
  unfold zbar_image in Body.
  invert_bind Body im w5 t8 t9 L;
    apply call_inv in L; destruct L as (a & C & R & T); try discriminate.
  inversion R; subst a t8; clear R C.
  unfold truthy in Body. rewrite negb_involutive in Body.
  destruct (Z.eqb_spec im 0) as [->|Im].
  { unfold raise in Body. inversion Body; subst.
    rewrite TFin by discriminate. rewrite app_nil_r, <- app_assoc.
    cbn [app]. now apply image_refused. }
  apply try_finally_inv in Body.
  destruct Body as [[E ->]|(w6 & t10 & E & NF & -> & ->)];
    apply scan_block_run in E;
    destruct E as (status & tl & -> &
                   [(Neg & R & ->)|
                    (Pos & first & tl' & -> & F & Z0 & OF & Rs & Em & Box)]);
    try discriminate.
  - (* out of fuel in the loop *)
    rewrite (TOF eq_refl). cbn [app].
    assert (forall s, ~ In (GetLocSize s 0) tl') as NoEmpty
        by (intros s0 I0; specialize (Em s0 I0); discriminate).
    exact (extraction_unfinished lib set_order _ _ _ _
             scanner im status first tl' Sc Im Pos (OF eq_refl) F NoEmpty).
  - (* the scan was rejected *)
    subst res. rewrite (TFin NF). rewrite <- !app_assoc. cbn [app].
    exact (scan_rejected lib set_order _ _ _ _ scanner im status Sc Im Neg).
  - (* the extraction ended *)
    rewrite (TFin NF). rewrite <- !app_assoc. cbn [app].
    rewrite <- ?app_assoc. cbn [app].
    exact (extraction_ended lib set_order _ _ _ _
             scanner im status first tl' res Sc Im Pos F Z0 Box Rs Em NF).
Qed.

Lemma pixels_width_height_finishes (img : image pil ndarray) :
  pixels_width_height img <> OutOfFuel.
Proof.
  destruct img as [im|a|p wd h]; cbv beta iota zeta delta [pixels_width_height];
    try discriminate.
  - destruct (pil_size _). discriminate.
  - match goal with |- context [firstn 2 ?l] =>
      destruct (firstn 2 l) as [|? [|? [|? ?]]]; discriminate end.
Qed.

Lemma int_truediv_finishes (a b : Z) : int_truediv a b <> OutOfFuel.
Proof.
  unfold int_truediv. destruct (b =? 0); [discriminate|].
  destruct (SFdiv _ _ _ _); discriminate.
Qed.

(** A call that fails before the engine is touched leaves no trace. *)
Lemma decode_before_engine (fuel : nat) (img : image pil ndarray)
      (symbols : option (list Z)) (scan_locations : bool) (w : World) :
  (forall e, pixels_width_height img = Raise e ->
             decode lib set_order fuel img symbols scan_locations w
             = (Raise e, w, []))
  /\ (forall pixels width height,
         pixels_width_height img = Return (pixels, width, height) ->
         (forall e, int_truediv (8 * len pixels) (width * height) = Raise e ->
                    decode lib set_order fuel img symbols scan_locations w
                    = (Raise e, w, []))
         /\ (forall bpp,
                int_truediv (8 * len pixels) (width * height) = Return bpp ->
                int_eq_float 8 bpp = false ->
                decode lib set_order fuel img symbols scan_locations w
                = (Raise (unsupported_bpp bpp), w, []))).
Proof.
  split; [|intros pixels width height P; split].
  - intros e P. unfold decode, bind at 1, lift at 1. now rewrite P.
  - intros e D. unfold decode, bind at 1, lift at 1. rewrite P.
    cbv beta iota. unfold bind at 1, lift at 1. now rewrite D.
  - intros bpp D B. unfold decode, bind at 1, lift at 1. rewrite P.
    cbv beta iota. unfold bind at 1, lift at 1. rewrite D, B. reflexivity.
Qed.

(** Every call of [decode] either fails before the engine is touched or
    follows one of the exit paths. *)
Lemma decode_cases (fuel : nat) (img : image pil ndarray)
      (symbols : option (list Z)) (scan_locations : bool)
      (w w' : World) (res : outcome (list Decoded)) (tr : list event) :
  decode lib set_order fuel img symbols scan_locations w = (res, w', tr) ->
  (tr = [] /\ w' = w /\
   exists e, res = Raise e /\
     (pixels_width_height img = Raise e
      \/ exists pixels width height,
          pixels_width_height img = Return (pixels, width, height) /\
          (int_truediv (8 * len pixels) (width * height) = Raise e
           \/ exists bpp,
               int_truediv (8 * len pixels) (width * height) = Return bpp /\
               int_eq_float 8 bpp = false /\ e = unsupported_bpp bpp)))
  \/ (exists pixels width height bpp,
         pixels_width_height img = Return (pixels, width, height) /\
         int_truediv (8 * len pixels) (width * height) = Return bpp /\
         int_eq_float 8 bpp = true /\
         engine_run lib set_order (wanted symbols) pixels width height res tr).
Proof.
  intro E.
  destruct (decode_before_engine fuel img symbols scan_locations w)
    as [Early1 Early2].
  destruct (pixels_width_height img) as [[[pixels width] height]|e|] eqn:P.
  - destruct (Early2 _ _ _ eq_refl) as [Early3 Early4].
    destruct (int_truediv (8 * len pixels) (width * height)) as [bpp|e|] eqn:D.
    + destruct (int_eq_float 8 bpp) eqn:B.
      * right. exists pixels, width, height, bpp. repeat split; auto.
        eapply decode_engine_run; eauto.
      * left. rewrite (Early4 _ eq_refl B) in E. inversion E; subst.
        repeat split; auto. eexists; split; [reflexivity|].
        right. exists pixels, width, height. split; [reflexivity|].
        right. now exists bpp.
    + left. rewrite (Early3 _ eq_refl) in E. inversion E; subst.
      repeat split; auto. eexists; split; [reflexivity|].
      right. exists pixels, width, height. split; [reflexivity|]. now left.
    + now destruct (int_truediv_finishes _ _ D).
  - left. rewrite (Early1 _ eq_refl) in E. inversion E; subst.
    repeat split; auto. eexists; split; [reflexivity|]. now left.
  - now destruct (pixels_width_height_finishes _ P).
Qed.

(** The body of [with zbar_image() as img:] when it returns: the scan gave
    a status that is not negative and the two generators were drained. *)
Lemma scan_block_returns (fuel : nat) (scanner image : handle) (pixels : bytes)
      (width height : Z) (w w' : World) (ds : list Decoded) (t : list event) :
  bind (call_ (zbar_image_set_format lib image FOURCC_L800)
              (SetFormat image FOURCC_L800))
    (fun _ =>
     bind (call_ (zbar_image_set_size lib image width height)
                 (SetSize image width height))
       (fun _ =>
        bind (call_ (zbar_image_set_data lib image pixels (len pixels))
                    (SetData image pixels (len pixels)))
          (fun _ =>
           bind (call (zbar_scan_image lib scanner image)
                      (ScanImage scanner image))
             (fun decoded =>
              if decoded <? 0
              then raise (Exn PyZbarError (Literal "Unsupported image format"))
              else extend []
                     (decode_symbols lib (symbols_for_image lib fuel image))))))
    w = (Return ds, w', t) ->
  exists status w1 text,
    0 <= status /\
    extend [] (decode_symbols lib (symbols_for_image lib fuel image)) w1
    = (Return ds, w', text) /\
    t = [SetFormat image FOURCC_L800; SetSize image width height;
         SetData image pixels (len pixels); ScanImage scanner image status]
        ++ text.
Proof.
  intro E.
  invert_bind E u1 w1 t1 t2 L; apply call__inv in L;
    destruct L as (R & -> & ->); try discriminate.
  invert_bind E u2 w2 t3 t4 L; apply call__inv in L;
    destruct L as (R2 & -> & ->); try discriminate.
  invert_bind E u3 w3 t5 t6 L; apply call__inv in L;
    destruct L as (R3 & -> & ->); try discriminate.
  invert_bind E status w4 t7 t8 L; apply call_inv in L;
    destruct L as (a & C & R4 & ->); try discriminate.
  inversion R4; subst a; clear R4.
  destruct (Z.ltb_spec status 0) as [Neg|Pos]; [discriminate|].
  exists status, w4, t8. repeat split; auto.
Qed.

(** A call of [decode] that returns: the whole trace, with the run of the
    two generators in it. *)
Lemma decode_returns_run (fuel : nat) (img : image pil ndarray)
      (symbols : option (list Z)) (scan_locations : bool)
      (w w' : World) (ds : list Decoded) (tr : list event) :
  decode lib set_order fuel img symbols scan_locations w = (Return ds, w', tr) ->
  exists pixels width height scanner im status w1 w2 text,
    pixels_width_height img = Return (pixels, width, height) /\
    scanner <> 0 /\ im <> 0 /\ 0 <= status /\
    extend [] (decode_symbols lib (symbols_for_image lib fuel im)) w1
    = (Return ds, w2, text) /\
    tr = ScannerCreate scanner
           :: config_calls lib set_order scanner (wanted symbols)
           ++ scan_calls scanner im pixels width height status
           ++ text ++ [ImageDestroy im; ScannerDestroy scanner].
Proof.
  intro E. unfold decode in E.
  invert_bind E pwh w1 t1 t2 L; unfold lift in L; try discriminate.
  destruct pwh as [[pixels width] height].
  assert (pixels_width_height img = Return (pixels, width, height)) as P
      by now inversion L.
  inversion L; subst w1 t1; clear L. cbv beta iota in E.
  invert_bind E bpp w1 t1 t3 L; unfold lift in L; try discriminate.
  inversion L; subst w1 t1; clear L.
  destruct (negb (int_eq_float 8 bpp)); [discriminate|]. cbn [app] in E.
  unfold zbar_image_scanner in E.
  invert_bind E scanner w1 t1 t4 L;
    apply call_inv in L; destruct L as (a & C & R & T); try discriminate.
  inversion R; subst a t1; clear R C.
  unfold truthy in E. rewrite negb_involutive in E.
  destruct (Z.eqb_spec scanner 0) as [->|Sc]; [discriminate|].
  apply try_finally_inv in E.
  destruct E as [[_ ?]|(w2 & t5 & E & _ & -> & ->)]; [discriminate|].
  invert_bind E u w3 t6 t7 L;
    destruct (config_block_run scanner symbols w1) as [w4 C];
    rewrite C in L; try discriminate.
  inversion L; subst u w3 t6; clear L C.
  unfold zbar_image in E.
  invert_bind E im w5 t8 t9 L;
    apply call_inv in L; destruct L as (a & C & R & T); try discriminate.
  inversion R; subst a t8; clear R C.
  unfold truthy in E. rewrite negb_involutive in E.
  destruct (Z.eqb_spec im 0) as [->|Im]; [discriminate|].
  apply try_finally_inv in E.
  destruct E as [[_ ?]|(w6 & t10 & E & _ & -> & ->)]; [discriminate|].
  apply scan_block_returns in E.
  destruct E as (status & w7 & text & Pos & X & ->).
  exists pixels, width, height, scanner, im, status, w7, w6, text.
  split; [exact P|]. repeat split; auto.
  unfold scan_calls. cbn [app]. rewrite <- !app_assoc. cbn [app].
  rewrite <- !app_assoc. reflexivity.
Qed.
End Decode.

(** ** Properties of [decode] *)

Section Claims.
Context {World : Type} (lib : wrapper World).
Context {pil ndarray : Type} `{PILImage pil} `{NDArray ndarray}.
Variable set_order : list Z -> list Z.

Lemma config_calls_are_config (scanner : handle) (symbols : list Z) (e : event) :
  In e (config_calls lib set_order scanner symbols) -> is_config e = true.
Proof.
  unfold config_calls. destruct symbols as [|s l]; [intros []|].
  intro I. apply in_app_or in I.
  destruct I as [I|I]; apply in_map_iff in I; destruct I as (x & <- & _);
    reflexivity.
Qed.

(** Membership in a trace, one part of the trace at a time. *)
Ltac split_in I :=
  repeat match type of I with
         | In _ (_ ++ _) => apply in_app_or in I; destruct I as [I|I]
         | In _ (_ :: _) => destruct I as [I|I]
         | In _ [] => destruct I
         end.

(** Closes a goal in which an entry of one kind is found among entries of
    another kind. *)
Ltac misplaced I :=
  solve [ discriminate I
        | apply config_calls_are_config in I; discriminate I
        | match goal with
          | F : Forall _ ?l |- _ =>
              match type of I with
              | In _ l => rewrite Forall_forall in F; apply F in I;
                          discriminate I
              end
          end ].

Lemma filter_nothing (f : event -> bool) (l : list event) :
  (forall e, In e l -> f e = false) -> filter f l = [].
Proof.
  induction l as [|a l IH]; intro N; [reflexivity|]. simpl.
  rewrite (N a (or_introl eq_refl)). apply IH. intros e I. apply N. now right.
Qed.

Lemma filter_config_calls (f : event -> bool) (scanner : handle)
      (symbols : list Z) :
  (forall a b c d, f (SetConfig a b c d) = false) ->
  filter f (config_calls lib set_order scanner symbols) = [].
Proof.
  intro N. apply filter_nothing. intros e I.
  apply config_calls_are_config in I. destruct e; try discriminate. apply N.
Qed.

Lemma filter_symbol_calls (f : event -> bool) (tl : list event) :
  Forall (fun e => is_symbol_call e = true) tl ->
  (forall e, is_symbol_call e = true -> f e = false) ->
  filter f tl = [].
Proof.
  intros F N. apply filter_nothing. intros e I. apply N.
  rewrite Forall_forall in F. now apply F.
Qed.

(** Computes a filter over the trace of an exit path. *)
Ltac filter_trace :=
  repeat first
    [ rewrite filter_app
    | rewrite filter_config_calls by reflexivity
    | erewrite filter_symbol_calls by
        (try eassumption; intros [] ?; (reflexivity || discriminate))
    | progress cbn [filter app is_image_destroy is_scanner_destroy
                    is_config] ].

(** C3. When the scanner and the image were created and the scan gives a
    negative status, [decode] raises [PyZbarError('Unsupported image
    format')], and the trace of the call ends with the destruction of the
    image and then of the scanner, its only two destroy calls. *)
Theorem decode_scan_failure_releases_both
        (fuel : nat) (img : image pil ndarray) (symbols : option (list Z))
        (scan_locations : bool) (w w' : World)
        (res : outcome (list Decoded)) (tr : list event)
        (scanner im s i status : Z) :
  decode lib set_order fuel img symbols scan_locations w = (res, w', tr) ->
  In (ScannerCreate scanner) tr -> scanner <> 0 ->
  In (ImageCreate im) tr -> im <> 0 ->
  In (ScanImage s i status) tr -> status < 0 ->
  res = Raise (Exn PyZbarError (Literal "Unsupported image format")) /\
  filter is_image_destroy tr = [ImageDestroy im] /\
  filter is_scanner_destroy tr = [ScannerDestroy scanner] /\
  exists before, tr = before ++ [ImageDestroy im; ScannerDestroy scanner].
Proof.
  intros E Isc Sc Iim Im Iscan Neg.
  apply decode_cases in E.
  destruct E as [([=->] & _)|(pixels & width & height & bpp & _ & _ & _ & R)];
    [destruct Isc|].
  inversion R; subst; clear R; unfold scan_calls in *;
    split_in Iscan; try misplaced Iscan;
    inversion Iscan; subst; try lia.
  split_in Isc; try misplaced Isc. inversion Isc; subst.
  split_in Iim; try misplaced Iim. inversion Iim; subst.
  split; [reflexivity|]. split; [|split].
  - now filter_trace.
  - now filter_trace.
  - eexists. rewrite app_comm_cons, app_assoc. reflexivity.
Qed.

(** *** The failing exits, read off the trace *)

Lemma scanner_refused_run
      (fuel : nat) (img : image pil ndarray) (symbols : option (list Z))
      (scan_locations : bool) (w w' : World)
      (res : outcome (list Decoded)) (tr : list event) :
  decode lib set_order fuel img symbols scan_locations w = (res, w', tr) ->
  In (ScannerCreate 0) tr ->
  res = Raise no_decoder /\ tr = [ScannerCreate 0].
Proof.
  intros E I. apply decode_cases in E.
  destruct E as [([=->] & _)|(pixels & width & height & bpp & _ & _ & _ & R)];
    [destruct I|].
  inversion R; subst; clear R; unfold scan_calls in *; auto;
    split_in I; try misplaced I; inversion I; congruence.
Qed.

Lemma image_refused_run
      (fuel : nat) (img : image pil ndarray) (symbols : option (list Z))
      (scan_locations : bool) (w w' : World)
      (res : outcome (list Decoded)) (tr : list event) :
  decode lib set_order fuel img symbols scan_locations w = (res, w', tr) ->
  In (ImageCreate 0) tr ->
  exists scanner,
    scanner <> 0 /\ res = Raise no_image /\
    tr = ScannerCreate scanner
           :: config_calls lib set_order scanner (wanted symbols)
           ++ [ImageCreate 0; ScannerDestroy scanner].
Proof.
  intros E I. apply decode_cases in E.
  destruct E as [([=->] & _)|(pixels & width & height & bpp & _ & _ & _ & R)];
    [destruct I|].
  inversion R; subst; clear R; unfold scan_calls in *;
    split_in I; try misplaced I; inversion I; try congruence.
  now exists scanner.
Qed.

Lemma scan_rejected_run
      (fuel : nat) (img : image pil ndarray) (symbols : option (list Z))
      (scan_locations : bool) (w w' : World)
      (res : outcome (list Decoded)) (tr : list event) (s i status : Z) :
  decode lib set_order fuel img symbols scan_locations w = (res, w', tr) ->
  In (ScanImage s i status) tr -> status < 0 ->
  res = Raise unsupported_image.
Proof.
  intros E I Neg. apply decode_cases in E.
  destruct E as [([=->] & _)|(pixels & width & height & bpp & _ & _ & _ & R)];
    [destruct I|].
  inversion R; subst; clear R; unfold scan_calls in *;
    split_in I; try misplaced I; inversion I; subst; try lia.
  reflexivity.
Qed.

(** C5. When the scanner cannot be created, [decode] raises
    [PyZbarError('Could not create decoder')] and destroys nothing; when
    the image cannot be created, it raises [PyZbarError('Could not create
    image')] and makes no image-destroy call (the scanner, which was
    created, is destroyed once). *)
Theorem decode_create_failure
        (fuel : nat) (img : image pil ndarray) (symbols : option (list Z))
        (scan_locations : bool) (w w' : World)
        (res : outcome (list Decoded)) (tr : list event) :
  decode lib set_order fuel img symbols scan_locations w = (res, w', tr) ->
  (In (ScannerCreate 0) tr ->
   res = Raise (Exn PyZbarError (Literal "Could not create decoder")) /\
   filter is_scanner_destroy tr = [] /\ filter is_image_destroy tr = [])
  /\
  (In (ImageCreate 0) tr ->
   res = Raise (Exn PyZbarError (Literal "Could not create image")) /\
   filter is_image_destroy tr = [] /\
   exists scanner, filter is_scanner_destroy tr = [ScannerDestroy scanner]).
Proof.
  intro E. split; intro I.
  - destruct (scanner_refused_run _ _ _ _ _ _ _ _ E I) as [-> ->].
    repeat split.
  - destruct (image_refused_run _ _ _ _ _ _ _ _ E I) as (scanner & _ & -> & ->).
    split; [reflexivity|]. split; [now filter_trace|].
    exists scanner. now filter_trace.
Qed.

(** C6. When the scan gives a status that is not negative and the first
    symbol is null, [decode] returns the empty list. *)
Theorem decode_no_symbols
        (fuel : nat) (img : image pil ndarray) (symbols : option (list Z))
        (scan_locations : bool) (w w' : World)
        (res : outcome (list Decoded)) (tr : list event)
        (s i i' status : Z) :
  decode lib set_order fuel img symbols scan_locations w = (res, w', tr) ->
  In (ScanImage s i status) tr -> 0 <= status ->
  In (FirstSymbol i' 0) tr ->
  res = Return [].
Proof.
  intros E Iscan Pos I. apply decode_cases in E.
  destruct E as [([=->] & _)|(pixels & width & height & bpp & _ & _ & _ & R)];
    [destruct I|].
  inversion R; subst; clear R; unfold scan_calls in *;
    split_in I; try misplaced I; inversion I; subst.
  - match goal with Z0 : _ = 0 -> _ |- _ => now destruct (Z0 eq_refl) end.
  - congruence.
Qed.

Lemma difference_spec (universe symbols : list Z) (s : Z) :
  In s (difference universe symbols) <-> In s universe /\ ~ In s symbols.
Proof.
  unfold difference. rewrite filter_In, negb_true_iff.
  split; intros [U N]; split; auto.
  - intro I. assert (existsb (Z.eqb s) symbols = true) as X; [|congruence].
    apply existsb_exists. exists s. split; [exact I | apply Z.eqb_refl].
  - destruct (existsb (Z.eqb s) symbols) eqn:X; [|reflexivity].
    apply existsb_exists in X. destruct X as (x & I & Q).
    apply Z.eqb_eq in Q. subst x. contradiction.
Qed.

(** C4. A call with an absent or empty filter makes no configuration
    call.  A call with a non-empty filter makes, as soon as it has its
    scanner and right after the creation of the scanner, one disable
    call for each symbol type of the enum that is not in the filter, then
    one enable call for each entry of the filter, and no configuration
    call after these; whatever follows, the scan included, comes after
    them. *)
Theorem decode_configuration
        (fuel : nat) (img : image pil ndarray) (symbols : option (list Z))
        (scan_locations : bool) (w w' : World)
        (res : outcome (list Decoded)) (tr : list event) :
  set_iteration set_order ->
  decode lib set_order fuel img symbols scan_locations w = (res, w', tr) ->
  (wanted symbols = [] -> filter is_config tr = [])
  /\
  (wanted symbols <> [] ->
   forall scanner, In (ScannerCreate scanner) tr -> scanner <> 0 ->
   exists order rest,
     NoDup order /\
     (forall s, In s order <->
                In s (map snd (ZBarSymbol lib)) /\ ~ In s (wanted symbols)) /\
     tr = ScannerCreate scanner
            :: map (fun s => SetConfig scanner s (CFG_ENABLE lib) 0) order
            ++ map (fun s => SetConfig scanner s (CFG_ENABLE lib) 1)
                   (wanted symbols)
            ++ rest /\
     filter is_config rest = [] /\
     (forall s i status, In (ScanImage s i status) tr ->
                         In (ScanImage s i status) rest)).
Proof.
  intros SO E. apply decode_cases in E.
  destruct E as [([=->] & _)|(pixels & width & height & bpp & _ & _ & _ & R)].
  { split; [reflexivity | intros _ scanner []]. }
  split.
  - intro W. rewrite W in R.
    inversion R; subst; clear R; unfold scan_calls; cbn [config_calls];
      now filter_trace.
  - intros W scanner I Sc.
    assert (config_calls lib set_order scanner (wanted symbols) =
            map (fun s => SetConfig scanner s (CFG_ENABLE lib) 0)
                (set_order (difference (map snd (ZBarSymbol lib))
                                       (wanted symbols)))
            ++ map (fun s => SetConfig scanner s (CFG_ENABLE lib) 1)
                   (wanted symbols)) as C.
    { unfold config_calls. destruct (wanted symbols); [congruence|reflexivity]. }
    destruct (SO (difference (map snd (ZBarSymbol lib)) (wanted symbols)))
      as [ND Mem].
    assert (forall s,
               In s (set_order (difference (map snd (ZBarSymbol lib))
                                           (wanted symbols))) <->
               In s (map snd (ZBarSymbol lib)) /\ ~ In s (wanted symbols)) as Cpl.
    { intro s0. rewrite Mem. apply difference_spec. }
    inversion R; subst; clear R; unfold scan_calls in *;
      split_in I; try misplaced I; inversion I; subst; try congruence;
      rewrite C, <- app_assoc;
      (eexists _, _; split; [exact ND|]; split; [exact Cpl|];
       split; [reflexivity|]; split; [now filter_trace|]);
      intros s1 i1 st1 J;
      (destruct J as [J|J]; [discriminate J|]);
      (apply in_app_or in J; destruct J as [J|J];
       [apply in_map_iff in J; destruct J as (? & J & _); discriminate J|]);
      (apply in_app_or in J; destruct J as [J|J];
       [apply in_map_iff in J; destruct J as (? & J & _); discriminate J|]);
      exact J.
Qed.

(** C2. When the bits-per-pixel value that [decode] computes is not 8,
    [decode] raises [PyZbarError] with the message 'Unsupported
    bits-per-pixel [{0}]' formatted with that value; the engine is left as
    it was and the trace is empty: no primitive was called, the two create
    primitives included. *)
Theorem decode_unsupported_bpp
        (fuel : nat) (img : image pil ndarray) (symbols : option (list Z))
        (scan_locations : bool) (w : World)
        (pixels : bytes) (width height : Z) (bpp : spec_float) :
  pixels_width_height img = Return (pixels, width, height) ->
  int_truediv (8 * len pixels) (width * height) = Return bpp ->
  int_eq_float 8 bpp = false ->
  decode lib set_order fuel img symbols scan_locations w =
  (Raise (Exn PyZbarError
              (Format "Unsupported bits-per-pixel [{0}]" (PyFloat bpp))),
   w, []).
Proof.
  intros P D B.
  destruct (decode_before_engine lib set_order fuel img symbols scan_locations w)
    as [_ Early].
  destruct (Early _ _ _ P) as [_ Mismatch]. exact (Mismatch _ D B).
Qed.

(** X21. The case in point: a tuple whose buffer holds two bytes for each
    of its [width * height] pixels is refused with 16.0 bits per pixel. *)
Lemma decode_two_bytes_per_pixel
      (fuel : nat) (pixels : bytes) (width height : Z)
      (symbols : option (list Z)) (scan_locations : bool) (w : World) :
  0 < width * height -> len pixels = width * height * 2 ->
  decode lib set_order fuel (Triple pixels width height : image pil ndarray)
         symbols scan_locations w =
  (Raise (unsupported_bpp sixteen), w, []).
Proof.
  intros P L.
  destruct (int_truediv_two_bytes _ P) as [D B]. rewrite <- L in D.
  destruct (decode_before_engine lib set_order fuel
              (Triple pixels width height : image pil ndarray)
              symbols scan_locations w) as [_ Early].
  destruct (Early _ _ _ eq_refl) as [_ Mismatch]. exact (Mismatch _ D B).
Qed.

(** X20. A tuple with one byte for each of its pixels passes the check: the
    scanner is asked for. *)
Lemma decode_one_byte_per_pixel
      (fuel : nat) (pixels : bytes) (width height : Z)
      (symbols : option (list Z)) (scan_locations : bool) (w w' : World)
      (res : outcome (list Decoded)) (tr : list event) :
  0 < width * height -> len pixels = width * height ->
  decode lib set_order fuel (Triple pixels width height : image pil ndarray)
         symbols scan_locations w = (res, w', tr) ->
  exists scanner rest, tr = ScannerCreate scanner :: rest.
Proof.
  intros P L E.
  destruct (int_truediv_one_byte _ P) as [D B]. rewrite <- L in D at 1.
  pose proof (decode_engine_run lib set_order fuel
                (Triple pixels width height : image pil ndarray)
                symbols scan_locations w w' res tr pixels width height eight
                eq_refl D B E) as R.
  inversion R; subst; eexists _, _; reflexivity.
Qed.

(** C8. A tuple [(pixels, width, height)] is taken as it is: the three
    values come out of the normalisation unchanged.  The bits-per-pixel
    check is made on them: when their quotient cannot be computed or is not
    8 the call fails on it and nothing is asked of the engine, and when it
    is 8 the scanner is asked for.  And they are what is bound to the
    engine's image: once the image is created, the very next calls give it
    the format L800, this width and height, and these pixels with their
    length; no other size or data is ever set. *)
Theorem decode_triple_unchanged
        (fuel : nat) (pixels : bytes) (width height : Z)
        (symbols : option (list Z)) (scan_locations : bool) (w w' : World)
        (res : outcome (list Decoded)) (tr : list event) :
  decode lib set_order fuel (Triple pixels width height : image pil ndarray)
         symbols scan_locations w = (res, w', tr) ->
  pixels_width_height (Triple pixels width height : image pil ndarray)
    = Return (pixels, width, height) /\
  (forall e, int_truediv (8 * len pixels) (width * height) = Raise e ->
             res = Raise e /\ tr = []) /\
  (forall bpp, int_truediv (8 * len pixels) (width * height) = Return bpp ->
               int_eq_float 8 bpp = false ->
               res = Raise (unsupported_bpp bpp) /\ tr = []) /\
  (forall bpp, int_truediv (8 * len pixels) (width * height) = Return bpp ->
               int_eq_float 8 bpp = true ->
               exists scanner rest, tr = ScannerCreate scanner :: rest) /\
  (forall im, In (ImageCreate im) tr -> im <> 0 ->
              exists before after,
                tr = before
                       ++ ImageCreate im :: SetFormat im 808466521
                       :: SetSize im width height
                       :: SetData im pixels (len pixels) :: after) /\
  (forall im a b, In (SetSize im a b) tr -> a = width /\ b = height) /\
  (forall im d n, In (SetData im d n) tr -> d = pixels /\ n = len pixels).
Proof.
  intro E. split; [reflexivity|].
  destruct (decode_before_engine lib set_order fuel
              (Triple pixels width height : image pil ndarray)
              symbols scan_locations w) as [_ Early].
  destruct (Early _ _ _ eq_refl) as [Division Mismatch].
  split; [intros e D; rewrite (Division _ D) in E; now inversion E|].
  split; [intros bpp D B; rewrite (Mismatch _ D B) in E; now inversion E|].
  split.
  { intros bpp D B.
    pose proof (decode_engine_run lib set_order fuel
                  (Triple pixels width height : image pil ndarray)
                  symbols scan_locations w w' res tr pixels width height bpp
                  eq_refl D B E) as R.
    inversion R; subst; eexists _, _; reflexivity. }
  apply decode_cases in E.
  destruct E as [(-> & _)|(p & wd & h & bpp & P & D & B & R)].
  { repeat split; intros; contradiction. }
  simpl in P. inversion P; subst p wd h; clear P.
  split; [|split].
  - intros im I Im.
    inversion R; subst; clear R; unfold scan_calls in *;
      split_in I; try misplaced I; inversion I; subst; try congruence;
      match goal with
      | |- exists before after, ?a :: ?c ++ _ = _ => exists (a :: c)
      end; eexists; cbn [app]; rewrite <- ?app_assoc; reflexivity.
  - intros im a b I.
    inversion R; subst; clear R; unfold scan_calls in *;
      split_in I; try misplaced I; inversion I; subst; auto.
  - intros im d n I.
    inversion R; subst; clear R; unfold scan_calls in *;
      split_in I; try misplaced I; inversion I; subst; auto.
Qed.

Lemma pixels_width_height_raises (img : image pil ndarray) (e : exn) :
  pixels_width_height img = Raise e -> exn_type e = ValueError.
Proof.
  destruct img as [im|a|p wd h]; cbv beta iota zeta delta [pixels_width_height];
    try discriminate.
  - destruct (pil_size _). discriminate.
  - match goal with |- context [firstn 2 ?l] =>
      destruct (firstn 2 l) as [|? [|? [|? ?]]] end;
      intro E; inversion E; reflexivity.
Qed.

Lemma int_truediv_raises (a b : Z) (e : exn) :
  int_truediv a b = Raise e ->
  exn_type e = ZeroDivisionError \/ exn_type e = OverflowError.
Proof.
  unfold int_truediv. destruct (b =? 0).
  - intro E; inversion E. now left.
  - destruct (SFdiv _ _ _ _); intro E; inversion E; now right.
Qed.

(** C10. The four failures that [decode] raises itself — a bits-per-pixel
    value other than 8, a null scanner, a null image, a negative scan
    status — are all raised as [PyZbarError], each with its own message;
    and a [PyZbarError] that comes out of [decode] carries one of these
    four messages. *)
Theorem decode_raises_PyZbarError
        (fuel : nat) (img : image pil ndarray) (symbols : option (list Z))
        (scan_locations : bool) (w w' : World)
        (res : outcome (list Decoded)) (tr : list event) :
  decode lib set_order fuel img symbols scan_locations w = (res, w', tr) ->
  (forall pixels width height bpp,
      pixels_width_height img = Return (pixels, width, height) ->
      int_truediv (8 * len pixels) (width * height) = Return bpp ->
      int_eq_float 8 bpp = false ->
      res = Raise (Exn PyZbarError
                       (Format "Unsupported bits-per-pixel [{0}]" (PyFloat bpp))))
  /\ (In (ScannerCreate 0) tr ->
      res = Raise (Exn PyZbarError (Literal "Could not create decoder")))
  /\ (In (ImageCreate 0) tr ->
      res = Raise (Exn PyZbarError (Literal "Could not create image")))
  /\ (forall s i status,
         In (ScanImage s i status) tr -> status < 0 ->
         res = Raise (Exn PyZbarError (Literal "Unsupported image format")))
  /\ (forall e,
         res = Raise e -> exn_type e = PyZbarError ->
         (exists bpp, exn_msg e = Format "Unsupported bits-per-pixel [{0}]"
                                         (PyFloat bpp))
         \/ exn_msg e = Literal "Could not create decoder"
         \/ exn_msg e = Literal "Could not create image"
         \/ exn_msg e = Literal "Unsupported image format").
Proof.
  intro E. split; [|split; [|split; [|split]]].
  - intros pixels width height bpp P D B.
    destruct (decode_before_engine lib set_order fuel img symbols
                                   scan_locations w) as [_ Early].
    destruct (Early _ _ _ P) as [_ Mismatch].
    rewrite (Mismatch _ D B) in E. now inversion E.
  - intro I. now destruct (scanner_refused_run _ _ _ _ _ _ _ _ E I).
  - intro I.
    now destruct (image_refused_run _ _ _ _ _ _ _ _ E I) as (? & _ & -> & _).
  - intros s i status I Neg.
    exact (scan_rejected_run _ _ _ _ _ _ _ _ _ _ _ E I Neg).
  - intros e -> T. apply decode_cases in E.
    destruct E as [(_ & _ & e' & [= <-] & Early)|
                   (pixels & width & height & bpp & _ & _ & _ & R)].
    + destruct Early as [P|(pixels & width & height & _ & [D|(bpp & _ & _ & ->)])].
      * apply pixels_width_height_raises in P. congruence.
      * apply int_truediv_raises in D. destruct D; congruence.
      * left. now exists bpp.
    + inversion R; subst; clear R; auto.
      match goal with
      | Rs : forall e0, Raise e = Raise e0 -> exn_type e0 = ValueError |- _ =>
          specialize (Rs e eq_refl); congruence
      end.
Qed.

(** C7 (amended). A symbol whose location count is reported as zero makes
    the extraction fail with the [ValueError] that [min] raises on an empty
    list; the error is not a [PyZbarError]. *)
Theorem decode_symbol_without_locations
        (symbol s : handle) (w w' : World)
        (res : outcome Decoded) (t : list event) :
  decode_symbol lib symbol w = (res, w', t) ->
  In (GetLocSize s 0) t ->
  res = Raise (Exn ValueError (Literal "min() arg is an empty sequence")).
Proof. apply decode_symbol_empty. Qed.

(** X22. The same failure seen from [decode]: it comes out as it is, once
    the image and the scanner have been destroyed. *)
Lemma decode_without_locations
      (fuel : nat) (img : image pil ndarray) (symbols : option (list Z))
      (scan_locations : bool) (w w' : World)
      (res : outcome (list Decoded)) (tr : list event) (s : handle) :
  decode lib set_order fuel img symbols scan_locations w = (res, w', tr) ->
  In (GetLocSize s 0) tr ->
  res = Raise empty_sequence /\
  exists before im scanner,
    tr = before ++ [ImageDestroy im; ScannerDestroy scanner].
Proof.
  intros E I. apply decode_cases in E.
  destruct E as [([=->] & _)|(pixels & width & height & bpp & _ & _ & _ & R)];
    [destruct I|].
  inversion R; subst; clear R; unfold scan_calls in *;
    split_in I; try misplaced I; try discriminate I.
  - split; [match goal with Em : forall s, In _ _ -> _ |- _ => exact (Em s I) end|].
    match goal with
    | |- exists before im sc, ?a :: ?c ++ ?l ++ ?f :: ?tl ++ [_; _] = _ =>
        exists (a :: c ++ l ++ f :: tl)
    end.
    eexists _, _. cbn [app]. rewrite <- !app_assoc. reflexivity.
  - match goal with N : forall s, ~ In _ _ |- _ => now destruct (N s) end.
Qed.

(** X23. The box seen from [decode]: the [rect] of every record returned is
    the box of a non-empty list of points. *)
Lemma decode_rects_are_boxes
      (fuel : nat) (img : image pil ndarray) (symbols : option (list Z))
      (scan_locations : bool) (w w' : World)
      (ds : list Decoded) (tr : list event) :
  decode lib set_order fuel img symbols scan_locations w = (Return ds, w', tr) ->
  Forall boxed ds.
Proof.
  intros E. apply decode_cases in E.
  destruct E as [(_ & _ & e & [=] & _)|
                 (pixels & width & height & bpp & _ & _ & _ & R)].
  inversion R; subst; clear R; auto.
Qed.
(** *** Reading one symbol *)

Lemma locations_trace (symbol : handle) (indices : list Z) (w : World) :
  exists locations w',
    list_comp indices
      (fun index =>
         bind (call (zbar_symbol_get_loc_x lib symbol index) (GetLocX symbol index))
           (fun x =>
              bind (call (zbar_symbol_get_loc_y lib symbol index)
                         (GetLocY symbol index))
                (fun y => ret (x, y)))) w
    = (Return locations, w', location_calls symbol indices locations) /\
    List.length locations = List.length indices.
Proof.
  revert w; induction indices as [|i rest IH]; intro w.
  - exists [], w. split; reflexivity.
  - destruct (zbar_symbol_get_loc_x lib symbol i w) as [x w1] eqn:X.
    destruct (zbar_symbol_get_loc_y lib symbol i w1) as [y w2] eqn:Y.
    destruct (IH w2) as (locations & w' & E & L).
    exists ((x, y) :: locations), w'. split; [|simpl; congruence].
    simpl list_comp.
    replace (location_calls symbol (i :: rest) ((x, y) :: locations))
      with (([GetLocX symbol i x] ++ [GetLocY symbol i y] ++ [])
            ++ location_calls symbol rest locations ++ []).
    + eapply bind_Return.
      * eapply bind_Return; [apply call_run, X|].
        eapply bind_Return; [apply call_run, Y|]. reflexivity.
      * eapply bind_Return; [exact E | reflexivity].
    + rewrite !app_nil_r. reflexivity.
Qed.

(** What a symbol that was read leaves in the record and in the trace. *)
Lemma decode_symbol_returns_run
        (symbol : handle) (w w' : World) (d : Decoded) (t : list event) :
  decode_symbol lib symbol w = (Return d, w', t) ->
  exists pointer w1 size locations,
    zbar_symbol_get_data lib symbol w = (pointer, w1) /\
    data d = string_at lib pointer w1 /\
    ZBarSymbol_name lib (contents_type lib symbol w1) = Return (type d) /\
    t = GetData symbol pointer :: GetLocSize symbol size
          :: location_calls symbol (range size) locations /\
    len locations = size /\ 0 < size /\
    bounding_box_of_locations locations = Return (rect d).
Proof.
  unfold decode_symbol. intro E.
  apply bind_inv in E.
  destruct E as [(pointer & w1 & t1 & t2 & C & E & ->)|[(e & C & _)|[C _]]];
    apply call_inv in C; destruct C as (a & C & R & T); try discriminate.
  inversion R; subst a t1. exists pointer, w1.
  unfold bind at 1 2 3 in E. unfold peek, lift in E.
  destruct (ZBarSymbol_name lib (contents_type lib symbol w1)) as [name|e|] eqn:N;
    try (simpl in E; discriminate).
  simpl in E.
  destruct (bind _ _ w1) as [[r w2] t3] eqn:B in E. inversion E; subst; clear E.
  apply bind_inv in B.
  destruct B as [(size & w3 & ta & tb & C2 & E & ->)|[(e & C2 & X)|[C2 X]]];
    apply call_inv in C2; destruct C2 as (a & C2 & R2 & T2); try discriminate.
  inversion R2; subst a ta.
  destruct (locations_trace symbol (range size) w3) as (locations & w4 & EL & L).
  apply bind_inv in E.
  destruct E as [(l' & w5 & tc & td & E1 & E & ->)|[(e & E1 & X)|[E1 X]]];
    rewrite EL in E1; try discriminate.
  inversion E1; subst l' w5 tc.
  unfold range in L. rewrite length_map, length_seq in L.
  unfold bind, lift, ret in E.
  destruct (bounding_box_of_locations locations) as [r| |] eqn:BB;
    simpl in E; inversion E; subst; clear E.
  exists size, locations. rewrite !app_nil_r. simpl.
  destruct locations as [|p ps]; [discriminate|].
  repeat split; auto; unfold len; simpl List.length in *; lia.
Qed.

(** X5. A record that [decode_symbols] yields holds the bytes at the data
    pointer of the symbol, the name of its type code in the enum, and the
    box of exactly the points the engine answered, fetched index by index
    from 0, x before y. *)
Theorem decode_symbol_returns
        (symbol : handle) (w w' : World) (d : Decoded) (t : list event) :
  decode_symbol lib symbol w = (Return d, w', t) ->
  exists pointer w1 size locations,
    zbar_symbol_get_data lib symbol w = (pointer, w1) /\
    data d = string_at lib pointer w1 /\
    ZBarSymbol_name lib (contents_type lib symbol w1) = Return (type d) /\
    t = GetData symbol pointer :: GetLocSize symbol size
          :: location_calls symbol (range size) locations /\
    len locations = size /\ 0 < size /\
    bounding_box_of_locations locations = Return (rect d).
Proof. apply decode_symbol_returns_run. Qed.

(** X6. A type code that is no value of the enum stops the extraction with
    [ValueError] right after the data pointer was fetched: the points of
    the symbol are never asked for. *)
Theorem decode_symbol_unknown_type
        (symbol pointer : handle) (w w1 : World) :
  zbar_symbol_get_data lib symbol w = (pointer, w1) ->
  ~ In (contents_type lib symbol w1) (map snd (ZBarSymbol lib)) ->
  decode_symbol lib symbol w =
  (Raise (Exn ValueError
              (Format "{0} is not a valid ZBarSymbol"
                      (PyInt (contents_type lib symbol w1)))),
   w1, [GetData symbol pointer]).
Proof.
  intros G N. unfold decode_symbol.
  unfold bind at 1. rewrite (call_run _ _ _ _ _ G).
  unfold bind at 1 2 3, peek, lift, ZBarSymbol_name.
  destruct (find _ (ZBarSymbol lib)) as [member|] eqn:F; [|reflexivity].
  apply find_some in F. destruct F as [I Q]. apply Z.eqb_eq in Q.
  destruct N. rewrite <- Q. now apply in_map.
Qed.

(** X7. A location count that is zero or negative leaves the list of points
    empty, and the extraction fails with the [ValueError] of [min]. *)
Theorem decode_symbol_count_not_positive
        (symbol s : handle) (n : Z) (w w' : World)
        (res : outcome Decoded) (t : list event) :
  decode_symbol lib symbol w = (res, w', t) ->
  In (GetLocSize s n) t -> n <= 0 ->
  res = Raise (Exn ValueError (Literal "min() arg is an empty sequence")).
Proof.
  intros E I N. destruct (decode_symbol_run _ _ _ _ _ _ E)
    as (pointer & w1 & _ &
        [(e & _ & _ & ->)|(name & size & l & tl & _ & -> & F & L & ->)]).
  - destruct I as [I|[]]. discriminate.
  - destruct I as [I|[I|I]]; try discriminate.
    + inversion I; subst.
      replace (Z.to_nat n) with 0%nat in L by lia.
      destruct l; [reflexivity | discriminate].
    + rewrite Forall_forall in F. apply F in I. discriminate.
Qed.

(** *** The iterator on its own *)

(** One turn of draining [symbols_for_image]. *)
Lemma extend_symbols_step (fuel : nat) (f : World -> handle * World)
      (ev : handle -> event) (results : list handle) (w : World) :
  extend results (Gen (bind (call f ev) (fun s => symbols_loop lib fuel s))) w =
  let '(s, w1) := f w in
  if s =? 0 then (Return results, w1, [ev s])
  else
    match fuel with
    | O => (OutOfFuel, w1, [ev s])
    | S fuel' =>
        let '(res, w2, t2) :=
          extend (results ++ [s])
            (Gen (bind (call (zbar_symbol_next lib s) (SymbolNext s))
                       (fun next => symbols_loop lib fuel' next))) w1 in
        (res, w2, ev s :: t2)
    end.
Proof.
  match goal with |- _ = ?R => remember R as rhs eqn:HR end.
  cbn [extend]. rewrite symbols_step.
  subst rhs. destruct (f w) as [s w1]. destruct (s =? 0); [reflexivity|].
  destruct fuel as [|fuel']; [reflexivity|].
  destruct (extend (results ++ [s]) _ w1) as [[res w2] t2]. reflexivity.
Qed.

Lemma extend_symbols_run (fuel : nat) :
  forall (f : World -> handle * World) (ev : handle -> event)
         (results : list handle) (w w' : World)
         (res : outcome (list handle)) (t : list event),
    extend results (Gen (bind (call f ev) (fun s => symbols_loop lib fuel s))) w
    = (res, w', t) ->
    res = OutOfFuel \/
    exists chain,
      res = Return (results ++ chain) /\
      Forall (fun h => h <> 0) chain /\
      t = links ev chain /\ (List.length chain <= fuel)%nat.
Proof.
  induction fuel as [|fuel IH]; intros f ev results w w' res t;
    rewrite extend_symbols_step; destruct (f w) as [s w1];
    destruct (Z.eqb_spec s 0) as [Z0|Z0].
  - intro E; inversion E; subst. right. exists [].
    rewrite app_nil_r. repeat split; auto.
  - intro E; inversion E; subst. now left.
  - intro E; inversion E; subst. right. exists [].
    rewrite app_nil_r. repeat split; auto. simpl; lia.
  - destruct (extend _ _ w1) as [[res' w2] t2] eqn:X.
    intro E; inversion E; subst; clear E.
    apply IH in X. destruct X as [->|(chain & -> & F & -> & L)]; [now left|].
    right. exists (s :: chain). rewrite <- app_assoc.
    repeat split; auto. simpl; lia.
Qed.

(** X8. Draining [symbols_for_image] never raises.  When it finishes, the
    handles it yielded are non-null, the first is the answer of the
    first-symbol call, each next one is the answer of the next-symbol call
    made on the one before, and the walk ends on the first null answer. *)
Theorem symbols_for_image_chain
        (fuel : nat) (image : handle) (w w' : World)
        (res : outcome (list handle)) (t : list event) :
  extend [] (symbols_for_image lib fuel image) w = (res, w', t) ->
  (forall e, res <> Raise e) /\
  (forall chain, res = Return chain ->
                 Forall (fun h => h <> 0) chain /\
                 t = links (FirstSymbol image) chain /\
                 (List.length chain <= fuel)%nat).
Proof.
  unfold symbols_for_image. intro E. apply extend_symbols_run in E.
  destruct E as [->|(chain & -> & F & -> & L)].
  - split; [discriminate|]. intros chain X; discriminate.
  - split; [discriminate|]. intros c X; inversion X; subst. auto.
Qed.

(** *** The context managers on their own *)

(** X9. [with zbar_image() as image: body]: a null handle raises
    [PyZbarError('Could not create image')] and the body is not run;
    otherwise the body runs on the handle and, however it ends, the image is
    destroyed once, after the body's calls, and the body's result — value or
    exception — is the result of the block. *)
Theorem zbar_image_scope
        {A : Type} (body : handle -> M World A) (w w' : World)
        (res : outcome A) (t : list event) :
  zbar_image lib body w = (res, w', t) ->
  res <> OutOfFuel ->
  exists h w1,
    zbar_image_create lib w = (h, w1) /\
    ((h = 0 /\ res = Raise no_image /\ w' = w1 /\ t = [ImageCreate 0])
     \/ (h <> 0 /\
         exists w2 tb,
           body h w1 = (res, w2, tb) /\
           w' = zbar_image_destroy lib h w2 /\
           t = ImageCreate h :: tb ++ [ImageDestroy h])).
Proof.
  unfold zbar_image. intros E NF.
  apply bind_inv in E.
  destruct E as [(h & w1 & t1 & t2 & C & E & ->)|[(e & C & _)|[C _]]];
    apply call_inv in C; destruct C as (a & C & R & T); try discriminate.
  inversion R; subst a t1; clear R.
  exists h, w1. split; [exact C|].
  unfold truthy in E. rewrite negb_involutive in E.
  destruct (Z.eqb_spec h 0) as [->|N].
  - left. unfold raise in E. inversion E; subst. auto.
  - right. split; [exact N|].
    apply try_finally_inv in E.
    destruct E as [[_ ->]|(w2 & tb & E & _ & -> & ->)]; [congruence|].
    now exists w2, tb.
Qed.

(** X10. [with zbar_image_scanner() as scanner: body]: the same for the
    scanner, with [PyZbarError('Could not create decoder')]. *)
Theorem zbar_image_scanner_scope
        {A : Type} (body : handle -> M World A) (w w' : World)
        (res : outcome A) (t : list event) :
  zbar_image_scanner lib body w = (res, w', t) ->
  res <> OutOfFuel ->
  exists h w1,
    zbar_image_scanner_create lib w = (h, w1) /\
    ((h = 0 /\ res = Raise no_decoder /\ w' = w1 /\ t = [ScannerCreate 0])
     \/ (h <> 0 /\
         exists w2 tb,
           body h w1 = (res, w2, tb) /\
           w' = zbar_image_scanner_destroy lib h w2 /\
           t = ScannerCreate h :: tb ++ [ScannerDestroy h])).
Proof.
  unfold zbar_image_scanner. intros E NF.
  apply bind_inv in E.
  destruct E as [(h & w1 & t1 & t2 & C & E & ->)|[(e & C & _)|[C _]]];
    apply call_inv in C; destruct C as (a & C & R & T); try discriminate.
  inversion R; subst a t1; clear R.
  exists h, w1. split; [exact C|].
  unfold truthy in E. rewrite negb_involutive in E.
  destruct (Z.eqb_spec h 0) as [->|N].
  - left. unfold raise in E. inversion E; subst. auto.
  - right. split; [exact N|].
    apply try_finally_inv in E.
    destruct E as [[_ ->]|(w2 & tb & E & _ & -> & ->)]; [congruence|].
    now exists w2, tb.
Qed.

(** *** More on [decode] *)

(** X12. A two-dimensional [uint8] array is not converted: its bytes are
    scanned as they are, with the first dimension of its shape as the
    height and the second as the width. *)
Theorem decode_gray_array
        (fuel : nat) (a : ndarray) (rows columns : Z)
        (symbols : option (list Z)) (scan_locations : bool) (w : World) :
  nd_shape a = [rows; columns] -> nd_dtype a = "uint8" ->
  decode lib set_order fuel (Numpy_ndarray a) symbols scan_locations w =
  decode lib set_order fuel
         (Triple (match nd_tobytes a with Some b => b | None => nd_tostring a end)
                 columns rows)
         symbols scan_locations w.
Proof.
  intros S D.
  assert (pixels_width_height (Numpy_ndarray a : image pil ndarray) =
          Return (match nd_tobytes a with Some b => b | None => nd_tostring a end,
                  columns, rows)) as P.
  { cbv beta iota zeta delta [pixels_width_height].
    rewrite S. change (3 =? len [rows; columns]) with false. cbv iota.
    rewrite D. change (negb ("uint8" =? "uint8")%string) with false. cbv iota.
    rewrite S. reflexivity. }
  unfold decode, bind at 1 3, lift at 1 3. now rewrite P.
Qed.

(** X13. A [uint8] array with fewer than two dimensions cannot be unpacked
    into a height and a width: [decode] raises [ValueError] and the engine is
    not touched. *)
Theorem decode_flat_array
        (fuel : nat) (a : ndarray)
        (symbols : option (list Z)) (scan_locations : bool) (w : World) :
  (List.length (nd_shape a) < 2)%nat -> nd_dtype a = "uint8" ->
  exists m,
    decode lib set_order fuel (Numpy_ndarray a) symbols scan_locations w =
    (Raise (Exn ValueError m), w, []).
Proof.
  intros S D.
  assert (exists m, pixels_width_height (Numpy_ndarray a : image pil ndarray) =
                    Raise (Exn ValueError m)) as (m & P).
  { cbv beta iota zeta delta [pixels_width_height].
    assert ((3 =? len (nd_shape a)) = false) as ->
        by (apply Z.eqb_neq; unfold len; lia).
    rewrite D. change (negb ("uint8" =? "uint8")%string) with false. cbv iota.
    destruct (nd_shape a) as [|x [|y l]]; simpl in S; try lia;
      cbn [firstn]; eexists; reflexivity. }
  exists m.
  destruct (decode_before_engine lib set_order fuel
              (Numpy_ndarray a : image pil ndarray) symbols scan_locations w)
    as [Early _].
  exact (Early _ P).
Qed.

(** X14. An image whose width times height is zero makes the bits-per-pixel
    division fail: [decode] raises [ZeroDivisionError], not [PyZbarError],
    and the engine is not touched. *)
Theorem decode_zero_area
        (fuel : nat) (img : image pil ndarray) (symbols : option (list Z))
        (scan_locations : bool) (w : World)
        (pixels : bytes) (width height : Z) :
  pixels_width_height img = Return (pixels, width, height) ->
  width * height = 0 ->
  decode lib set_order fuel img symbols scan_locations w =
  (Raise (Exn ZeroDivisionError (Literal "division by zero")), w, []).
Proof.
  intros P Z0.
  destruct (decode_before_engine lib set_order fuel img symbols scan_locations w)
    as [_ Early].
  destruct (Early _ _ _ P) as [Division _]. apply Division.
  unfold int_truediv. now rewrite Z0.
Qed.

Lemma flat_map_nothing {B : Type} (f : event -> list B) (l : list event) :
  (forall e, In e l -> f e = []) -> flat_map f l = [].
Proof.
  induction l as [|a l IH]; intro N; [reflexivity|]. simpl.
  rewrite (N a (or_introl eq_refl)). apply IH. intros e I. apply N. now right.
Qed.

Lemma flat_map_config_calls {B : Type} (f : event -> list B)
      (scanner : handle) (symbols : list Z) :
  (forall a b c d, f (SetConfig a b c d) = []) ->
  flat_map f (config_calls lib set_order scanner symbols) = [].
Proof.
  intro N. apply flat_map_nothing. intros e I.
  apply config_calls_are_config in I. destruct e; try discriminate. apply N.
Qed.

Lemma flat_map_symbol_calls {B : Type} (f : event -> list B) (tl : list event) :
  Forall (fun e => is_symbol_call e = true) tl ->
  (forall e, is_symbol_call e = true -> f e = []) ->
  flat_map f tl = [].
Proof.
  intros F N. apply flat_map_nothing. intros e I. apply N.
  rewrite Forall_forall in F. now apply F.
Qed.

Ltac flat_map_trace :=
  repeat first
    [ rewrite flat_map_app
    | rewrite flat_map_config_calls by reflexivity
    | erewrite flat_map_symbol_calls by
        (try eassumption; intros [] ?; (reflexivity || discriminate))
    | progress cbn [flat_map app] ].

(** X15. Whatever way a call of [decode] ends, it releases what it
    acquired, each resource once and the last acquired first: the image, if
    one was created, then the scanner, if one was created; a null handle is
    neither counted nor destroyed. *)
Theorem decode_releases_in_reverse
        (fuel : nat) (img : image pil ndarray) (symbols : option (list Z))
        (scan_locations : bool) (w w' : World)
        (res : outcome (list Decoded)) (tr : list event) :
  decode lib set_order fuel img symbols scan_locations w = (res, w', tr) ->
  res <> OutOfFuel ->
  released tr = rev (acquired tr) /\ (List.length (acquired tr) <= 2)%nat.
Proof.
  intros E NF. apply decode_cases in E.
  destruct E as [(-> & _)|(pixels & width & height & bpp & _ & _ & _ & R)];
    [split; [reflexivity | simpl; lia]|].
  inversion R; subst; clear R; try congruence;
    unfold released, acquired, scan_calls; flat_map_trace;
    repeat match goal with
           | N : ?h <> 0 |- context [?h =? 0] =>
               rewrite (proj2 (Z.eqb_neq h 0) N)
           end;
    cbn [app rev Z.eqb List.length]; split; (reflexivity || lia).
Qed.

(** X16. A call of [decode] that returns a list made these calls, in this
    order: the scanner is created, configured, the image is created and
    given the format L800, the size and the pixels, it is scanned once with
    a status that is not negative, the symbols are walked from the first
    one, and the image, then the scanner, are destroyed. *)
Theorem decode_success_protocol
        (fuel : nat) (img : image pil ndarray) (symbols : option (list Z))
        (scan_locations : bool) (w w' : World)
        (ds : list Decoded) (tr : list event) :
  decode lib set_order fuel img symbols scan_locations w = (Return ds, w', tr) ->
  exists pixels width height scanner im status first tl,
    pixels_width_height img = Return (pixels, width, height) /\
    scanner <> 0 /\ im <> 0 /\ 0 <= status /\
    Forall (fun e => is_symbol_call e = true) tl /\
    tr = ScannerCreate scanner
           :: config_calls lib set_order scanner (wanted symbols)
           ++ [ImageCreate im; SetFormat im 808466521; SetSize im width height;
               SetData im pixels (len pixels); ScanImage scanner im status]
           ++ FirstSymbol im first :: tl
           ++ [ImageDestroy im; ScannerDestroy scanner].
Proof.
  intros E. apply decode_cases in E.
  destruct E as [(_ & _ & e & [=] & _)|
                 (pixels & width & height & bpp & P & _ & _ & R)].
  inversion R; subst; clear R.
  exists pixels, width, height, scanner, image0, status, first, tl.
  repeat split; auto.
Qed.

(** X17. No symbol type is both disabled and enabled by one call. *)
Theorem decode_config_disjoint
        (fuel : nat) (img : image pil ndarray) (symbols : option (list Z))
        (scan_locations : bool) (w w' : World)
        (res : outcome (list Decoded)) (tr : list event)
        (s sc sc' c c' : Z) :
  set_iteration set_order ->
  decode lib set_order fuel img symbols scan_locations w = (res, w', tr) ->
  In (SetConfig sc s c 0) tr -> ~ In (SetConfig sc' s c' 1) tr.
Proof.
  intros SO E I0 I1. apply decode_cases in E.
  destruct E as [([=->] & _)|(pixels & width & height & bpp & _ & _ & _ & R)];
    [destruct I0|].
  assert (forall scanner,
             In (SetConfig sc s c 0)
                (config_calls lib set_order scanner (wanted symbols)) ->
             ~ In s (wanted symbols)) as Off.
  { intros scanner I. unfold config_calls in I.
    destruct (wanted symbols) as [|x l] eqn:W; [destruct I|].
    apply in_app_or in I. destruct I as [I|I]; apply in_map_iff in I;
      destruct I as (y & Q & I); inversion Q; subst y.
    apply (proj1 (proj2 (SO _) _)) in I. now apply difference_spec in I. }
  assert (forall scanner,
             In (SetConfig sc' s c' 1)
                (config_calls lib set_order scanner (wanted symbols)) ->
             In s (wanted symbols)) as On.
  { intros scanner I. unfold config_calls in I.
    destruct (wanted symbols) as [|x l] eqn:W; [destruct I|].
    apply in_app_or in I. destruct I as [I|I]; apply in_map_iff in I;
      destruct I as (y & Q & I); inversion Q; subst y. exact I. }
  inversion R; subst; clear R; unfold scan_calls in *;
    split_in I0; try discriminate I0;
    try (match goal with
         | F : Forall _ ?l |- _ =>
             match type of I0 with
             | In _ l => rewrite Forall_forall in F; apply F in I0;
                         discriminate I0
             end
         end);
    split_in I1; try discriminate I1;
    try (match goal with
         | F : Forall _ ?l |- _ =>
             match type of I1 with
             | In _ l => rewrite Forall_forall in F; apply F in I1;
                         discriminate I1
             end
         end);
    exact (Off _ I0 (On _ I1)).
Qed.

(** *** Fuel *)

Lemma refines_refl {A : Type} (m : M World A) : refines m m.
Proof. now intros w res w' t E _. Qed.

Lemma refines_bind {A B : Type} (m1 m2 : M World A) (k1 k2 : A -> M World B) :
  refines m1 m2 -> (forall a, refines (k1 a) (k2 a)) ->
  refines (bind m1 k1) (bind m2 k2).
Proof.
  intros Rm Rk w res w' t E NF. apply bind_inv in E.
  destruct E as [(a & w1 & t1 & t2 & E1 & E2 & ->)|[(e & E1 & ->)|[_ ->]]];
    [| |congruence].
  - apply (bind_Return _ _ _ _ _ _ _ _ _ (Rm _ _ _ _ E1 ltac:(discriminate))
                       (Rk _ _ _ _ _ E2 NF)).
  - apply bind_Raise. apply (Rm _ _ _ _ E1). discriminate.
Qed.

Lemma refines_try_finally {A : Type} (body1 body2 : M World A)
      (cleanup : M World unit) :
  refines body1 body2 ->
  refines (try_finally body1 cleanup) (try_finally body2 cleanup).
Proof.
  intros Rb w res w' t. unfold try_finally.
  destruct (body1 w) as [[[a|e|] w1] t1] eqn:B; intros E NF.
  - rewrite (Rb _ _ _ _ B ltac:(discriminate)). exact E.
  - rewrite (Rb _ _ _ _ B ltac:(discriminate)). exact E.
  - inversion E; subst. congruence.
Qed.

Lemma extend_more_fuel (fuel : nat) :
  forall (f : World -> handle * World) (ev : handle -> event)
         (results : list Decoded),
    refines
      (extend results
         (decode_symbols lib
            (Gen (bind (call f ev) (fun s => symbols_loop lib fuel s)))))
      (extend results
         (decode_symbols lib
            (Gen (bind (call f ev) (fun s => symbols_loop lib (S fuel) s))))).
Proof.
  induction fuel as [|fuel IH]; intros f ev results w res w' t;
    rewrite (extend_step lib (S _)), (extend_step lib);
    destruct (f w) as [s w1]; destruct (s =? 0); auto.
  - intros E NF. inversion E; subst. congruence.
  - destruct (decode_symbol lib s w1) as [[[d|e|] w2] t2]; auto.
    destruct (extend (results ++ [d]) _ w2) as [[r1 w3] t3] eqn:X.
    intros E NF. inversion E; subst; clear E.
    now rewrite (IH _ _ _ _ _ _ _ X NF).
Qed.

(** X18. The fuel of the symbol loop decides only whether the run is
    followed to its end: a call that finishes with some fuel finishes in the
    same way — same result, same final engine state, same calls — with any
    larger fuel. *)
Theorem decode_more_fuel
        (fuel more : nat) (img : image pil ndarray) (symbols : option (list Z))
        (scan_locations : bool) (w w' : World)
        (res : outcome (list Decoded)) (tr : list event) :
  decode lib set_order fuel img symbols scan_locations w = (res, w', tr) ->
  res <> OutOfFuel ->
  decode lib set_order (fuel + more) img symbols scan_locations w = (res, w', tr).
Proof.
  intros E NF. induction more as [|more IH].
  - now rewrite Nat.add_0_r.
  - rewrite Nat.add_succ_r. revert IH NF. generalize (fuel + more)%nat.
    clear E fuel. intros fuel E NF. revert w res w' tr E NF.
    change (refines (decode lib set_order fuel img symbols scan_locations)
                    (decode lib set_order (S fuel) img symbols scan_locations)).
    unfold decode, zbar_image_scanner, zbar_image.
    apply refines_bind; [apply refines_refl|]. intros [[pixels width] height].
    apply refines_bind; [apply refines_refl|]. intro bpp.
    destruct (negb (int_eq_float 8 bpp)); [apply refines_refl|].
    cbv zeta.
    apply refines_bind; [apply refines_refl|]. intro scanner.
    destruct (negb (truthy scanner)); [apply refines_refl|].
    apply refines_try_finally.
    apply refines_bind; [apply refines_refl|]. intros _.
    apply refines_bind; [apply refines_refl|]. intro image0.
    destruct (negb (truthy image0)); [apply refines_refl|].
    apply refines_try_finally.
    apply refines_bind; [apply refines_refl|]. intros _.
    apply refines_bind; [apply refines_refl|]. intros _.
    apply refines_bind; [apply refines_refl|]. intros _.
    apply refines_bind; [apply refines_refl|]. intro decoded.
    destruct (decoded <? 0); [apply refines_refl|].
    apply extend_more_fuel.
Qed.

(** *** The two generators together *)

(** Draining the decoded symbols, read by read: the trace is the call that
    fetched the current symbol followed by the calls of each read in turn,
    and each record added has the box of the points of its read. *)
Lemma extend_decode_symbols_reads (fuel : nat) :
  forall (f : World -> handle * World) (ev : handle -> event)
         (results : list Decoded) (w w' : World)
         (ds : list Decoded) (t : list event),
    extend results
           (decode_symbols lib
              (Gen (bind (call f ev) (fun s => symbols_loop lib fuel s)))) w
    = (Return ds, w', t) ->
    exists reads records,
      ds = results ++ records /\
      t = ev (head_symbol reads) :: reading_calls reads /\
      Forall (fun r => read_symbol r <> 0) reads /\
      (List.length reads <= fuel)%nat /\
      Forall2 (fun d r =>
                 read_locations r <> [] /\
                 bounding_box_of_locations (read_locations r) = Return (rect d))
              records reads.
Proof.
  induction fuel as [|fuel IH]; intros f ev results w w' ds t;
    rewrite extend_step; destruct (f w) as [s w1];
    destruct (Z.eqb_spec s 0) as [Z0|Z0].
  - intro E; inversion E; subst. exists [], [].
    rewrite app_nil_r. repeat split; auto; try (simpl; lia).
  - discriminate.
  - intro E; inversion E; subst. exists [], [].
    rewrite app_nil_r. repeat split; auto; try (simpl; lia).
  - destruct (decode_symbol lib s w1) as [[[d|e|] w2] t2] eqn:D; try discriminate.
    destruct (decode_symbol_returns_run _ _ _ _ _ D)
      as (pointer & w1' & size & locations & _ & _ & _ & -> & L & P & B).
    destruct (extend _ _ w2) as [[res' w3] t3] eqn:X.
    intro E; inversion E; subst res' w3 t; clear E.
    apply IH in X. destruct X as (reads & records & -> & -> & F & Len & F2).
    exists ({| read_symbol := s; read_pointer := pointer;
               read_locations := locations |} :: reads), (d :: records).
    rewrite <- app_assoc. cbn [head_symbol reading_calls read_symbol
                                read_pointer read_locations app].
    rewrite L. split; [reflexivity|]. split.
    { reflexivity. }
    split; [constructor; [exact Z0 | exact F]|].
    split; [simpl; lia|].
    constructor; [|exact F2]. cbn [read_locations]. split; [|exact B].
    intro N. subst locations. unfold len in L. simpl in L. lia.
Qed.

(** X19. [decode_symbols] over [symbols_for_image]: when the two generators
    are drained to the end, the trace is the first-symbol call followed, for
    each symbol of the chain in turn, by the calls that read it and then the
    call that fetches the next one — a symbol is read in full before its
    successor is asked for, and the walk ends on the null answer; there is
    one record for each symbol read, in that order, holding the box of the
    points of that symbol. *)
Theorem decode_symbols_one_per_symbol
        (fuel : nat) (image : handle) (w w' : World)
        (ds : list Decoded) (t : list event) :
  extend [] (decode_symbols lib (symbols_for_image lib fuel image)) w
  = (Return ds, w', t) ->
  exists reads,
    t = FirstSymbol image (head_symbol reads) :: reading_calls reads /\
    Forall (fun r => read_symbol r <> 0) reads /\
    (List.length reads <= fuel)%nat /\
    List.length ds = List.length reads /\
    Forall2 (fun d r =>
               bounding_box_of_locations (read_locations r) = Return (rect d))
            ds reads.
Proof.
  unfold symbols_for_image. intro E.
  apply extend_decode_symbols_reads in E.
  destruct E as (reads & records & -> & -> & F & L & F2).
  exists reads. cbn [app]. repeat split; auto.
  - apply (Forall2_length F2).
  - eapply Forall2_impl; [|exact F2]. now intros d r [_ B].
Qed.

(** *** The records of [decode] *)

Lemma bounding_box_spans (locations : list (Z * Z)) (r : Rect) :
  bounding_box_of_locations locations = Return r -> spans locations r.
Proof.
  destruct locations as [|p ps]; [discriminate|].
  rewrite bounding_box_cons. intro E; inversion E; subst r; clear E.
  exists (fold_left Z.min (map fst ps) (fst p)),
         (fold_left Z.max (map fst ps) (fst p)),
         (fold_left Z.min (map snd ps) (snd p)),
         (fold_left Z.max (map snd ps) (snd p)).
  repeat split;
    try apply (fold_min_is_min (map fst ps) (fst p));
    try apply (fold_max_is_max (map fst ps) (fst p));
    try apply (fold_min_is_min (map snd ps) (snd p));
    try apply (fold_max_is_max (map snd ps) (snd p)).
Qed.

(** C1. For every non-empty list of scan points the box is
    [Rect(min x, min y, max x - min x, max y - min y)]: its left and top are
    the least x and the least y of the points, and its width and height are
    the greatest x and y minus those.  And so is the [rect] of each record
    that [decode] returns: the trace of the call shows, symbol after symbol,
    the points the engine answered, there is one record for each symbol
    read, in that order, and its [rect] is that rectangle for the points of
    that symbol. *)
Theorem rect_is_min_max :
  (forall locations : list (Z * Z),
      locations <> [] ->
      exists x_min x_max y_min y_max,
        is_min (map fst locations) x_min /\ is_max (map fst locations) x_max /\
        is_min (map snd locations) y_min /\ is_max (map snd locations) y_max /\
        bounding_box_of_locations locations =
          Return (mkRect x_min y_min (x_max - x_min) (y_max - y_min)))
  /\
  (forall (fuel : nat) (img : image pil ndarray) (symbols : option (list Z))
          (scan_locations : bool) (w w' : World)
          (ds : list Decoded) (tr : list event),
      decode lib set_order fuel img symbols scan_locations w = (Return ds, w', tr) ->
      exists pixels width height scanner im status reads,
        tr = ScannerCreate scanner
               :: config_calls lib set_order scanner (wanted symbols)
               ++ scan_calls scanner im pixels width height status
               ++ FirstSymbol im (head_symbol reads) :: reading_calls reads
               ++ [ImageDestroy im; ScannerDestroy scanner] /\
        Forall (fun r => read_symbol r <> 0) reads /\
        Forall2 (fun d r =>
                   read_locations r <> [] /\
                   bounding_box_of_locations (read_locations r) = Return (rect d) /\
                   spans (read_locations r) (rect d))
                ds reads).
Proof.
  split; [exact bounding_box_is_min_max|].
  intros fuel img symbols scan_locations w w' ds tr E.
  apply decode_returns_run in E.
  destruct E as (pixels & width & height & scanner & im & status & w1 & w2 & text
                 & _ & _ & _ & _ & X & ->).
  unfold symbols_for_image in X. apply extend_decode_symbols_reads in X.
  destruct X as (reads & records & -> & -> & F & _ & F2).
  exists pixels, width, height, scanner, im, status, reads.
  cbn [app]. repeat split; auto.
  eapply Forall2_impl; [|exact F2].
  intros d r [N B]. repeat split; auto. now apply bounding_box_spans.
Qed.

End Claims.

(** ** The properties on the scripted engine *)

(** A buffer of 4*3*2 bytes gives 16.0 bits per pixel. *)
Lemma decode_unsupported_bpp_wide :
  pixels_width_height Script.wide_4x3 = Return (Script.blank 24, 4, 3) /\
  int_truediv (8 * len (Script.blank 24)) (4 * 3) = Return sixteen /\
  int_eq_float 8 sixteen = false /\
  Script.run Script.working Script.wide_4x3 (Some [64]) =
  (Raise (Exn PyZbarError
              (Format "Unsupported bits-per-pixel [{0}]" (PyFloat sixteen))),
   Script.working, []).
Proof.
  assert (pixels_width_height Script.wide_4x3 = Return (Script.blank 24, 4, 3))
    as P by reflexivity.
  assert (int_truediv (8 * len (Script.blank 24)) (4 * 3) = Return sixteen)
    as D by (vm_compute; reflexivity).
  assert (int_eq_float 8 sixteen = false) as B by (vm_compute; reflexivity).
  split; [exact P|]. split; [exact D|]. split; [exact B|].
  exact (decode_unsupported_bpp Script.lib Script.enum_order 16 Script.wide_4x3
           (Some [64]) false Script.working (Script.blank 24) 4 3 sixteen
           P D B).
Defined.

Lemma run_eq (e : Script.engine) (i : Script.input) (symbols : option (list Z)) :
  decode Script.lib Script.enum_order 16 i symbols false e =
  (fst (fst (Script.run e i symbols)), snd (fst (Script.run e i symbols)),
   snd (Script.run e i symbols)).
Proof. unfold Script.run. now destruct (decode _ _ _ _ _ _ _) as [[? ?] ?]. Defined.

Lemma decode_scan_failure_releases_both_rejecting :
  let run := Script.run Script.rejecting Script.gray_4x3 None in
  (In (ScannerCreate 7) (snd run) /\ 7 <> 0 /\
   In (ImageCreate 9) (snd run) /\ 9 <> 0 /\
   In (ScanImage 7 9 (-1)) (snd run) /\ -1 < 0) /\
  fst (fst run) = Raise (Exn PyZbarError (Literal "Unsupported image format")) /\
  filter is_image_destroy (snd run) = [ImageDestroy 9] /\
  filter is_scanner_destroy (snd run) = [ScannerDestroy 7] /\
  exists before, snd run = before ++ [ImageDestroy 9; ScannerDestroy 7].
Proof.
  intro run.
  assert (In (ScannerCreate 7) (snd run)) as I1 by (vm_compute; tauto).
  assert (In (ImageCreate 9) (snd run)) as I2 by (vm_compute; tauto).
  assert (In (ScanImage 7 9 (-1)) (snd run)) as I3 by (vm_compute; tauto).
  assert (7 <> 0) as N1 by discriminate.
  assert (9 <> 0) as N2 by discriminate.
  assert (-1 < 0) as N3 by reflexivity.
  split; [tauto|].
  exact (decode_scan_failure_releases_both Script.lib Script.enum_order 16
           Script.gray_4x3 None false Script.rejecting _ _ _ 7 9 7 9 (-1)
           (run_eq Script.rejecting Script.gray_4x3 None) I1 N1 I2 N2 I3 N3).
Defined.

Lemma set_iteration_enum_order : set_iteration Script.enum_order.
Proof.
  intro l. split; [apply NoDup_nodup | intro x; apply nodup_In].
Defined.

Lemma decode_create_failure_scripted :
  let refused := Script.run Script.without_scanner Script.gray_4x3 None in
  let half := Script.run Script.without_image Script.gray_4x3 None in
  (In (ScannerCreate 0) (snd refused) /\
   fst (fst refused) = Raise (Exn PyZbarError (Literal "Could not create decoder")) /\
   filter is_scanner_destroy (snd refused) = [] /\
   filter is_image_destroy (snd refused) = [])
  /\
  (In (ImageCreate 0) (snd half) /\
   fst (fst half) = Raise (Exn PyZbarError (Literal "Could not create image")) /\
   filter is_image_destroy (snd half) = [] /\
   exists scanner, filter is_scanner_destroy (snd half) = [ScannerDestroy scanner]).
Proof.
  intros refused half.
  assert (In (ScannerCreate 0) (snd refused)) as I1 by (vm_compute; tauto).
  assert (In (ImageCreate 0) (snd half)) as I2 by (vm_compute; tauto).
  split; (split; [assumption|]).
  - exact (proj1 (decode_create_failure Script.lib Script.enum_order 16
                    Script.gray_4x3 None false Script.without_scanner _ _ _
                    (run_eq Script.without_scanner Script.gray_4x3 None)) I1).
  - exact (proj2 (decode_create_failure Script.lib Script.enum_order 16
                    Script.gray_4x3 None false Script.without_image _ _ _
                    (run_eq Script.without_image Script.gray_4x3 None)) I2).
Defined.

Lemma decode_no_symbols_blind :
  let run := Script.run Script.blind Script.gray_4x3 None in
  In (ScanImage 7 9 0) (snd run) /\ 0 <= 0 /\ In (FirstSymbol 9 0) (snd run) /\
  fst (fst run) = Return [].
Proof.
  intro run.
  assert (In (ScanImage 7 9 0) (snd run)) as I1 by (vm_compute; tauto).
  assert (In (FirstSymbol 9 0) (snd run)) as I2 by (vm_compute; tauto).
  assert (0 <= 0) as N by discriminate.
  split; [exact I1|]. split; [exact N|]. split; [exact I2|].
  exact (decode_no_symbols Script.lib Script.enum_order 16 Script.gray_4x3 None
           false Script.blind _ _ _ 7 9 9 0
           (run_eq Script.blind Script.gray_4x3 None) I1 N I2).
Defined.

Lemma bounding_box_nonnegative_corners :
  corners <> [] /\
  exists r, bounding_box_of_locations corners = Return r /\
            0 <= width r /\ 0 <= height r.
Proof.
  split; [discriminate | apply (bounding_box_nonnegative corners); discriminate].
Defined.

Lemma decode_symbol_without_locations_pointless :
  let run := decode_symbol Script.lib 1 Script.pointless in
  In (GetLocSize 1 0) (snd run) /\
  fst (fst run) = Raise (Exn ValueError (Literal "min() arg is an empty sequence")).
Proof.
  intro run.
  assert (In (GetLocSize 1 0) (snd run)) as I by (vm_compute; tauto).
  split; [exact I|].
  refine (decode_symbol_without_locations Script.lib 1 1 Script.pointless
            (snd (fst run)) (fst (fst run)) (snd run) _ I).
  unfold run. now destruct (decode_symbol _ _ _) as [[? ?] ?].
Defined.

Lemma decode_raises_PyZbarError_rejecting :
  let run := Script.run Script.rejecting Script.gray_4x3 None in
  In (ScanImage 7 9 (-1)) (snd run) /\ -1 < 0 /\
  fst (fst run) = Raise (Exn PyZbarError (Literal "Unsupported image format")).
Proof.
  intro run.
  assert (In (ScanImage 7 9 (-1)) (snd run)) as I by (vm_compute; tauto).
  assert (-1 < 0) as N by reflexivity.
  split; [exact I|]. split; [exact N|].
  exact (proj1 (proj2 (proj2 (proj2
           (decode_raises_PyZbarError Script.lib Script.enum_order 16
              Script.gray_4x3 None false Script.rejecting _ _ _
              (run_eq Script.rejecting Script.gray_4x3 None)))))
           7 9 (-1) I N).
Defined.

(** ** A limit *)

(** The symbol without scan points makes the extraction raise the built-in
    [ValueError], not a [PyZbarError]. *)
Lemma decode_symbol_without_locations_not_PyZbarError :
  let run := decode_symbol Script.lib 1 Script.pointless in
  In (GetLocSize 1 0) (snd run) /\
  fst (fst run) = Raise (Exn ValueError (Literal "min() arg is an empty sequence")) /\
  forall e, fst (fst run) = Raise e -> exn_type e <> PyZbarError.
Proof.
  intro run. split; [vm_compute; tauto|]. split; [reflexivity|].
  intros e E. vm_compute in E. inversion E. discriminate.
Qed.


(** ** More on the bounding box *)

Lemma is_min_unique (l l' : list Z) (m m' : Z) :
  (forall x, In x l <-> In x l') -> is_min l m -> is_min l' m' -> m = m'.
Proof.
  intros S [I L] [I' L']. apply Z.le_antisymm.
  - apply L. now apply S.
  - apply L'. now apply S.
Qed.

Lemma is_max_unique (l l' : list Z) (m m' : Z) :
  (forall x, In x l <-> In x l') -> is_max l m -> is_max l' m' -> m = m'.
Proof.
  intros S [I L] [I' L']. apply Z.le_antisymm.
  - apply L'. now apply S.
  - apply L. now apply S.
Qed.

(** The box is the one rectangle whose sides are the least and greatest
    coordinates. *)
Lemma bounding_box_from_bounds (locations : list (Z * Z)) (a b c d : Z) :
  is_min (map fst locations) a -> is_max (map fst locations) b ->
  is_min (map snd locations) c -> is_max (map snd locations) d ->
  bounding_box_of_locations locations = Return (mkRect a c (b - a) (d - c)).
Proof.
  destruct locations as [|p ps]; [intros [[] _]|]. intros A B C D.
  rewrite bounding_box_cons.
  rewrite (is_min_unique _ _ _ _ (fun x => iff_refl _)
             (fold_min_is_min (map fst ps) (fst p)) A).
  rewrite (is_max_unique _ _ _ _ (fun x => iff_refl _)
             (fold_max_is_max (map fst ps) (fst p)) B).
  rewrite (is_min_unique _ _ _ _ (fun x => iff_refl _)
             (fold_min_is_min (map snd ps) (snd p)) C).
  rewrite (is_max_unique _ _ _ _ (fun x => iff_refl _)
             (fold_max_is_max (map snd ps) (snd p)) D).
  reflexivity.
Qed.

(** The bounds of a box that was returned. *)
Lemma bounding_box_bounds (locations : list (Z * Z)) (r : Rect) :
  bounding_box_of_locations locations = Return r ->
  is_min (map fst locations) (left r) /\
  is_max (map fst locations) (left r + width r) /\
  is_min (map snd locations) (top r) /\
  is_max (map snd locations) (top r + height r).
Proof.
  destruct locations as [|p ps]; [discriminate|].
  rewrite bounding_box_cons. intro E; inversion E; subst r; clear E. simpl.
  replace (fold_left Z.min (map fst ps) (fst p)
           + (fold_left Z.max (map fst ps) (fst p)
              - fold_left Z.min (map fst ps) (fst p)))
    with (fold_left Z.max (map fst ps) (fst p)) by lia.
  replace (fold_left Z.min (map snd ps) (snd p)
           + (fold_left Z.max (map snd ps) (snd p)
              - fold_left Z.min (map snd ps) (snd p)))
    with (fold_left Z.max (map snd ps) (snd p)) by lia.
  repeat split;
    try apply (fold_min_is_min (map fst ps) (fst p));
    try apply (fold_max_is_max (map fst ps) (fst p));
    try apply (fold_min_is_min (map snd ps) (snd p));
    try apply (fold_max_is_max (map snd ps) (snd p)).
Qed.

(** X1. Every scan point lies inside the box computed from the points. *)
Theorem bounding_box_contains (locations : list (Z * Z)) (r : Rect) (x y : Z) :
  bounding_box_of_locations locations = Return r ->
  In (x, y) locations ->
  left r <= x <= left r + width r /\ top r <= y <= top r + height r.
Proof.
  intros E I. destruct (bounding_box_bounds _ _ E) as ([_ A] & [_ B] & [_ C] & [_ D]).
  assert (In x (map fst locations)) as Ix by (apply (in_map fst _ _ I)).
  assert (In y (map snd locations)) as Iy by (apply (in_map snd _ _ I)).
  split; split; auto.
Qed.

(** X2. The box depends on the set of points only: neither their order nor
    their repetition changes it, and an empty list stays an error. *)
Theorem bounding_box_same_points (l l' : list (Z * Z)) :
  (forall p, In p l <-> In p l') ->
  bounding_box_of_locations l = bounding_box_of_locations l'.
Proof.
  intro S.
  assert (forall x, In x (map fst l) <-> In x (map fst l')) as Sx.
  { intro x. rewrite !in_map_iff.
    split; intros (p & <- & I); exists p; split; auto; now apply S. }
  assert (forall y, In y (map snd l) <-> In y (map snd l')) as Sy.
  { intro y. rewrite !in_map_iff.
    split; intros (p & <- & I); exists p; split; auto; now apply S. }
  destruct l as [|p ps].
  - destruct l' as [|p' ps']; [reflexivity|].
    destruct (proj2 (S p') (or_introl eq_refl)).
  - destruct (bounding_box_of_locations (p :: ps)) as [r| |] eqn:E;
      try (rewrite bounding_box_cons in E; discriminate).
    destruct (bounding_box_bounds _ _ E) as (A & B & C & D).
    symmetry.
    replace r with (mkRect (left r) (top r) (left r + width r - left r)
                           (top r + height r - top r))
      by (destruct r; simpl; f_equal; lia).
    apply bounding_box_from_bounds.
    + destruct A as [I L]. split; [now apply Sx | intros z Z; apply L; now apply Sx].
    + destruct B as [I L]. split; [now apply Sx | intros z Z; apply L; now apply Sx].
    + destruct C as [I L]. split; [now apply Sy | intros z Z; apply L; now apply Sy].
    + destruct D as [I L]. split; [now apply Sy | intros z Z; apply L; now apply Sy].
Qed.

Lemma is_min_shift (l : list Z) (m d : Z) :
  is_min l m -> is_min (map (fun x => x + d) l) (m + d).
Proof.
  intros [I L]. split.
  - apply in_map_iff. now exists m.
  - intros x X. apply in_map_iff in X. destruct X as (z & <- & Z).
    specialize (L z Z). lia.
Qed.

Lemma is_max_shift (l : list Z) (m d : Z) :
  is_max l m -> is_max (map (fun x => x + d) l) (m + d).
Proof.
  intros [I L]. split.
  - apply in_map_iff. now exists m.
  - intros x X. apply in_map_iff in X. destruct X as (z & <- & Z).
    specialize (L z Z). lia.
Qed.

(** X3. Moving all the points by [(dx, dy)] moves the corner of the box by
    [(dx, dy)] and keeps its width and height. *)
Theorem bounding_box_translate (locations : list (Z * Z)) (dx dy : Z) (r : Rect) :
  bounding_box_of_locations locations = Return r ->
  bounding_box_of_locations (translate dx dy locations) =
  Return (mkRect (left r + dx) (top r + dy) (width r) (height r)).
Proof.
  intro E. destruct (bounding_box_bounds _ _ E) as (A & B & C & D).
  replace (width r) with (left r + width r + dx - (left r + dx)) by lia.
  replace (height r) with (top r + height r + dy - (top r + dy)) by lia.
  unfold translate.
  apply bounding_box_from_bounds; rewrite map_map; cbn [fst snd];
    rewrite <- (map_map _ (fun z => z + _)).
  - now apply is_min_shift.
  - now apply is_max_shift.
  - now apply is_min_shift.
  - now apply is_max_shift.
Qed.

Lemma is_min_app (l1 l2 : list Z) (m1 m2 : Z) :
  is_min l1 m1 -> is_min l2 m2 -> is_min (l1 ++ l2) (Z.min m1 m2).
Proof.
  intros [I1 L1] [I2 L2]. split.
  - apply in_or_app. destruct (Z.min_spec m1 m2) as [[_ ->]|[_ ->]]; auto.
  - intros x X. apply in_app_or in X. destruct X as [X|X].
    + specialize (L1 x X). lia.
    + specialize (L2 x X). lia.
Qed.

Lemma is_max_app (l1 l2 : list Z) (m1 m2 : Z) :
  is_max l1 m1 -> is_max l2 m2 -> is_max (l1 ++ l2) (Z.max m1 m2).
Proof.
  intros [I1 L1] [I2 L2]. split.
  - apply in_or_app. destruct (Z.max_spec m1 m2) as [[_ ->]|[_ ->]]; auto.
  - intros x X. apply in_app_or in X. destruct X as [X|X].
    + specialize (L1 x X). lia.
    + specialize (L2 x X). lia.
Qed.

(** X4. The box of two lists of points put together is the hull of their
    boxes. *)
Theorem bounding_box_app (l1 l2 : list (Z * Z)) (r1 r2 : Rect) :
  bounding_box_of_locations l1 = Return r1 ->
  bounding_box_of_locations l2 = Return r2 ->
  bounding_box_of_locations (l1 ++ l2) = Return (hull r1 r2).
Proof.
  intros E1 E2.
  destruct (bounding_box_bounds _ _ E1) as (A1 & B1 & C1 & D1).
  destruct (bounding_box_bounds _ _ E2) as (A2 & B2 & C2 & D2).
  unfold hull. cbv zeta.
  apply bounding_box_from_bounds; rewrite map_app.
  - now apply is_min_app.
  - now apply is_max_app.
  - now apply is_min_app.
  - now apply is_max_app.
Qed.


(** ** More runs of the scripted engine *)

Lemma bounding_box_contains_corner :
  bounding_box_of_locations corners = Return (mkRect 10 10 40 20) /\
  In (50, 10) corners /\
  (10 <= 50 <= 10 + 40 /\ 10 <= 10 <= 10 + 20).
Proof.
  assert (bounding_box_of_locations corners = Return (mkRect 10 10 40 20)) as E
      by reflexivity.
  assert (In (50, 10) corners) as I by (simpl; tauto).
  split; [exact E|]. split; [exact I|].
  exact (bounding_box_contains corners (mkRect 10 10 40 20) 50 10 E I).
Defined.

Lemma bounding_box_same_points_shuffled :
  (forall p, In p corners <-> In p ((10, 30) :: (50, 30) :: rev corners)) /\
  bounding_box_of_locations corners =
  bounding_box_of_locations ((10, 30) :: (50, 30) :: rev corners).
Proof.
  assert (forall p, In p corners <-> In p ((10, 30) :: (50, 30) :: rev corners)) as S
      by (intro p; simpl; tauto).
  split; [exact S|].
  exact (bounding_box_same_points corners _ S).
Defined.

Lemma bounding_box_translate_corners :
  bounding_box_of_locations corners = Return (mkRect 10 10 40 20) /\
  bounding_box_of_locations (translate 5 (-3) corners) =
  Return (mkRect (10 + 5) (10 + -3) 40 20).
Proof.
  assert (bounding_box_of_locations corners = Return (mkRect 10 10 40 20)) as E
      by reflexivity.
  split; [exact E|].
  exact (bounding_box_translate corners 5 (-3) (mkRect 10 10 40 20) E).
Defined.

Lemma bounding_box_app_corners :
  bounding_box_of_locations corners = Return (mkRect 10 10 40 20) /\
  bounding_box_of_locations [(0, 15); (20, 60)] = Return (mkRect 0 15 20 45) /\
  bounding_box_of_locations (corners ++ [(0, 15); (20, 60)]) =
  Return (hull (mkRect 10 10 40 20) (mkRect 0 15 20 45)).
Proof.
  assert (bounding_box_of_locations corners = Return (mkRect 10 10 40 20)) as E1
      by reflexivity.
  assert (bounding_box_of_locations [(0, 15); (20, 60)] =
          Return (mkRect 0 15 20 45)) as E2 by reflexivity.
  split; [exact E1|]. split; [exact E2|].
  exact (bounding_box_app corners [(0, 15); (20, 60)] _ _ E1 E2).
Defined.

Lemma symbol_run_eq (e : Script.engine) (h : handle) :
  decode_symbol Script.lib h e =
  (fst (fst (decode_symbol Script.lib h e)),
   snd (fst (decode_symbol Script.lib h e)),
   snd (decode_symbol Script.lib h e)).
Proof. now destruct (decode_symbol _ _ _) as [[? ?] ?]. Defined.

Lemma decode_symbol_returns_qr :
  let run := decode_symbol Script.lib 1 Script.working in
  exists d,
    run = (Return d, Script.working, snd run) /\
    exists pointer w1 size locations,
      zbar_symbol_get_data Script.lib 1 Script.working = (pointer, w1) /\
      data d = string_at Script.lib pointer w1 /\
      ZBarSymbol_name Script.lib (contents_type Script.lib 1 w1) = Return (type d) /\
      snd run = GetData 1 pointer :: GetLocSize 1 size
                  :: location_calls 1 (range size) locations /\
      len locations = size /\ 0 < size /\
      bounding_box_of_locations locations = Return (rect d).
Proof.
  intro run.
  exists (mkDecoded [Byte.x68; Byte.x69] "QRCODE" (mkRect 10 10 40 20)).
  assert (run = (Return (mkDecoded [Byte.x68; Byte.x69] "QRCODE"
                                   (mkRect 10 10 40 20)),
                 Script.working, snd run)) as E by (vm_compute; reflexivity).
  split; [exact E|].
  exact (decode_symbol_returns Script.lib 1 Script.working Script.working _ _ E).
Defined.

Lemma decode_symbol_unknown_type_alien :
  zbar_symbol_get_data Script.lib 1 Script.puzzled = (1, Script.puzzled) /\
  ~ In (contents_type Script.lib 1 Script.puzzled) (map snd (ZBarSymbol Script.lib)) /\
  decode_symbol Script.lib 1 Script.puzzled =
  (Raise (Exn ValueError
              (Format "{0} is not a valid ZBarSymbol"
                      (PyInt (contents_type Script.lib 1 Script.puzzled)))),
   Script.puzzled, [GetData 1 1]).
Proof.
  assert (zbar_symbol_get_data Script.lib 1 Script.puzzled = (1, Script.puzzled))
    as G by reflexivity.
  assert (~ In (contents_type Script.lib 1 Script.puzzled)
            (map snd (ZBarSymbol Script.lib))) as N.
  { vm_compute. intros I.
    repeat (destruct I as [I|I]; [discriminate I|]). exact I. }
  split; [exact G|]. split; [exact N|].
  exact (decode_symbol_unknown_type Script.lib 1 1 Script.puzzled Script.puzzled G N).
Defined.

Lemma decode_symbol_count_not_positive_pointless :
  let run := decode_symbol Script.lib 1 Script.pointless in
  In (GetLocSize 1 0) (snd run) /\ 0 <= 0 /\
  fst (fst run) = Raise (Exn ValueError (Literal "min() arg is an empty sequence")).
Proof.
  intro run.
  assert (In (GetLocSize 1 0) (snd run)) as I by (vm_compute; tauto).
  assert (0 <= 0) as N by discriminate.
  split; [exact I|]. split; [exact N|].
  exact (decode_symbol_count_not_positive Script.lib 1 1 0 Script.pointless
           _ _ _ (symbol_run_eq Script.pointless 1) I N).
Defined.

Lemma symbols_for_image_chain_working :
  let run := extend [] (symbols_for_image Script.lib 16 9) Script.working in
  run = (Return [1], Script.working, snd run) /\
  (forall e, Return [1] <> Raise e) /\
  (forall chain, Return [1] = Return chain ->
                 Forall (fun h => h <> 0) chain /\
                 snd run = links (FirstSymbol 9) chain /\
                 (List.length chain <= 16)%nat).
Proof.
  intro run.
  assert (run = (Return [1], Script.working, snd run)) as E
      by (vm_compute; reflexivity).
  split; [exact E|].
  exact (symbols_for_image_chain Script.lib 16 9 Script.working Script.working
           (Return [1]) (snd run) E).
Defined.

Lemma zbar_image_scope_working :
  let run := zbar_image Script.lib (fun h => raise (A := Z) no_decoder)
                        Script.working in
  run = (Raise no_decoder, Script.working, [ImageCreate 9; ImageDestroy 9]) /\
  Raise (A := Z) no_decoder <> OutOfFuel /\
  exists h w1,
    zbar_image_create Script.lib Script.working = (h, w1) /\
    ((h = 0 /\ Raise (A := Z) no_decoder = Raise no_image /\
      Script.working = w1 /\ [ImageCreate 9; ImageDestroy 9] = [ImageCreate 0])
     \/ (h <> 0 /\
         exists w2 tb,
           raise (A := Z) no_decoder w1 = (Raise no_decoder, w2, tb) /\
           Script.working = zbar_image_destroy Script.lib h w2 /\
           [ImageCreate 9; ImageDestroy 9] = ImageCreate h :: tb ++ [ImageDestroy h])).
Proof.
  intro run.
  assert (run = (Raise no_decoder, Script.working,
                 [ImageCreate 9; ImageDestroy 9])) as E by reflexivity.
  assert (Raise (A := Z) no_decoder <> OutOfFuel) as NF by discriminate.
  split; [exact E|]. split; [exact NF|].
  exact (zbar_image_scope Script.lib (fun h => raise (A := Z) no_decoder)
           Script.working Script.working _ _ E NF).
Defined.

Lemma zbar_image_scanner_scope_working :
  let run := zbar_image_scanner Script.lib (fun h => ret h) Script.working in
  run = (Return 7, Script.working, [ScannerCreate 7; ScannerDestroy 7]) /\
  Return 7 <> OutOfFuel /\
  exists h w1,
    zbar_image_scanner_create Script.lib Script.working = (h, w1) /\
    ((h = 0 /\ Return 7 = Raise no_decoder /\
      Script.working = w1 /\
      [ScannerCreate 7; ScannerDestroy 7] = [ScannerCreate 0])
     \/ (h <> 0 /\
         exists w2 tb,
           ret h w1 = (Return 7, w2, tb) /\
           Script.working = zbar_image_scanner_destroy Script.lib h w2 /\
           [ScannerCreate 7; ScannerDestroy 7] =
           ScannerCreate h :: tb ++ [ScannerDestroy h])).
Proof.
  intro run.
  assert (run = (Return 7, Script.working,
                 [ScannerCreate 7; ScannerDestroy 7])) as E by reflexivity.
  assert (Return 7 <> OutOfFuel) as NF by discriminate.
  split; [exact E|]. split; [exact NF|].
  exact (zbar_image_scanner_scope Script.lib (fun h => ret h)
           Script.working Script.working _ _ E NF).
Defined.

Lemma decode_gray_array_3x4 :
  nd_shape Script.gray_array = [3; 4] /\ nd_dtype Script.gray_array = "uint8" /\
  decode Script.lib Script.enum_order 16
         (Numpy_ndarray Script.gray_array : Script.input) None false Script.working =
  decode Script.lib Script.enum_order 16
         (Triple (match nd_tobytes Script.gray_array with
                  | Some b => b
                  | None => nd_tostring Script.gray_array
                  end) 4 3 : Script.input)
         None false Script.working.
Proof.
  assert (nd_shape Script.gray_array = [3; 4]) as S by reflexivity.
  assert (nd_dtype Script.gray_array = "uint8") as D by reflexivity.
  split; [exact S|]. split; [exact D|].
  exact (decode_gray_array (pil := Script.picture) Script.lib Script.enum_order 16
           Script.gray_array 3 4 None false Script.working S D).
Defined.

Lemma decode_flat_array_12 :
  (List.length (nd_shape Script.flat_array) < 2)%nat /\
  nd_dtype Script.flat_array = "uint8" /\
  exists m,
    decode Script.lib Script.enum_order 16
           (Numpy_ndarray Script.flat_array : Script.input) None false Script.working =
    (Raise (Exn ValueError m), Script.working, []).
Proof.
  assert (List.length (nd_shape Script.flat_array) < 2)%nat as S by (simpl; lia).
  assert (nd_dtype Script.flat_array = "uint8") as D by reflexivity.
  split; [exact S|]. split; [exact D|].
  exact (decode_flat_array (pil := Script.picture) Script.lib Script.enum_order 16
           Script.flat_array None false Script.working S D).
Defined.

Lemma decode_zero_area_0x3 :
  pixels_width_height Script.empty_0x3 = Return (Script.blank 0, 0, 3) /\
  0 * 3 = 0 /\
  Script.run Script.working Script.empty_0x3 None =
  (Raise (Exn ZeroDivisionError (Literal "division by zero")), Script.working, []).
Proof.
  assert (pixels_width_height Script.empty_0x3 = Return (Script.blank 0, 0, 3)) as P
      by reflexivity.
  assert (0 * 3 = 0) as Z0 by reflexivity.
  split; [exact P|]. split; [exact Z0|].
  exact (decode_zero_area Script.lib Script.enum_order 16 Script.empty_0x3 None
           false Script.working (Script.blank 0) 0 3 P Z0).
Defined.

Lemma decode_releases_in_reverse_rejecting :
  let run := Script.run Script.rejecting Script.gray_4x3 None in
  fst (fst run) <> OutOfFuel /\
  acquired (snd run) = [Scanner 7; Image 9] /\
  released (snd run) = rev (acquired (snd run)) /\
  (List.length (acquired (snd run)) <= 2)%nat.
Proof.
  intro run.
  assert (fst (fst run) <> OutOfFuel) as NF by (vm_compute; discriminate).
  assert (acquired (snd run) = [Scanner 7; Image 9]) as A by reflexivity.
  split; [exact NF|]. split; [exact A|].
  exact (decode_releases_in_reverse Script.lib Script.enum_order 16
           Script.gray_4x3 None false Script.rejecting _ _ _
           (run_eq Script.rejecting Script.gray_4x3 None) NF).
Defined.

Lemma decode_success_protocol_working :
  let run := Script.run Script.working Script.gray_4x3 (Some [64]) in
  exists ds,
    run = (Return ds, Script.working, snd run) /\
    exists pixels width height scanner im status first tl,
      pixels_width_height Script.gray_4x3 = Return (pixels, width, height) /\
      scanner <> 0 /\ im <> 0 /\ 0 <= status /\
      Forall (fun e => is_symbol_call e = true) tl /\
      snd run =
      ScannerCreate scanner
        :: config_calls Script.lib Script.enum_order scanner (wanted (Some [64]))
        ++ [ImageCreate im; SetFormat im 808466521; SetSize im width height;
            SetData im pixels (len pixels); ScanImage scanner im status]
        ++ FirstSymbol im first :: tl
        ++ [ImageDestroy im; ScannerDestroy scanner].
Proof.
  intro run.
  exists [mkDecoded [Byte.x68; Byte.x69] "QRCODE" (mkRect 10 10 40 20)].
  assert (run = (Return [mkDecoded [Byte.x68; Byte.x69] "QRCODE"
                                   (mkRect 10 10 40 20)],
                 Script.working, snd run)) as E by (vm_compute; reflexivity).
  split; [exact E|].
  exact (decode_success_protocol Script.lib Script.enum_order 16 Script.gray_4x3
           (Some [64]) false Script.working Script.working _ _ E).
Defined.

Lemma decode_config_disjoint_qr_only :
  let run := Script.run Script.working Script.gray_4x3 (Some [64]) in
  set_iteration Script.enum_order /\
  In (SetConfig 7 128 0 0) (snd run) /\
  ~ In (SetConfig 7 128 0 1) (snd run).
Proof.
  intro run.
  assert (In (SetConfig 7 128 0 0) (snd run)) as I by (vm_compute; tauto).
  split; [exact set_iteration_enum_order|]. split; [exact I|].
  exact (decode_config_disjoint Script.lib Script.enum_order 16 Script.gray_4x3
           (Some [64]) false Script.working _ _ _ 128 7 7 0 0
           set_iteration_enum_order
           (run_eq Script.working Script.gray_4x3 (Some [64])) I).
Defined.

Lemma decode_more_fuel_working :
  let run := decode Script.lib Script.enum_order 1 Script.gray_4x3 None false
                    Script.working in
  fst (fst run) <> OutOfFuel /\
  decode Script.lib Script.enum_order (1 + 15) Script.gray_4x3 None false
         Script.working = (fst (fst run), snd (fst run), snd run).
Proof.
  intro run.
  assert (fst (fst run) <> OutOfFuel) as NF by (vm_compute; discriminate).
  split; [exact NF|].
  assert (decode Script.lib Script.enum_order 1 Script.gray_4x3 None false
                 Script.working = (fst (fst run), snd (fst run), snd run)) as E
      by (unfold run; now destruct (decode _ _ _ _ _ _ _) as [[? ?] ?]).
  exact (decode_more_fuel Script.lib Script.enum_order 1 15 Script.gray_4x3 None
           false Script.working _ _ _ E NF).
Defined.

Lemma decode_one_byte_per_pixel_gray :
  let run := Script.run Script.working Script.gray_4x3 None in
  0 < 4 * 3 /\ len (Script.blank 12) = 4 * 3 /\
  exists scanner rest, snd run = ScannerCreate scanner :: rest.
Proof.
  intro run.
  assert (0 < 4 * 3) as P by reflexivity.
  assert (len (Script.blank 12) = 4 * 3) as L by reflexivity.
  split; [exact P|]. split; [exact L|].
  exact (decode_one_byte_per_pixel Script.lib Script.enum_order 16
           (Script.blank 12) 4 3 None false Script.working _ _ _ P L
           (run_eq Script.working Script.gray_4x3 None)).
Defined.

Lemma decode_two_bytes_per_pixel_wide :
  0 < 4 * 3 /\ len (Script.blank 24) = 4 * 3 * 2 /\
  Script.run Script.working Script.wide_4x3 None =
  (Raise (unsupported_bpp sixteen), Script.working, []).
Proof.
  assert (0 < 4 * 3) as P by reflexivity.
  assert (len (Script.blank 24) = 4 * 3 * 2) as L by reflexivity.
  split; [exact P|]. split; [exact L|].
  exact (decode_two_bytes_per_pixel (pil := Script.picture)
           (ndarray := Script.array) Script.lib Script.enum_order 16
           (Script.blank 24) 4 3 None false Script.working P L).
Defined.

Lemma decode_without_locations_pointless :
  let run := Script.run Script.pointless Script.gray_4x3 None in
  In (GetLocSize 1 0) (snd run) /\
  fst (fst run) = Raise empty_sequence /\
  exists before im scanner,
    snd run = before ++ [ImageDestroy im; ScannerDestroy scanner].
Proof.
  intro run.
  assert (In (GetLocSize 1 0) (snd run)) as I by (vm_compute; tauto).
  split; [exact I|].
  exact (decode_without_locations Script.lib Script.enum_order 16 Script.gray_4x3
           None false Script.pointless _ _ _ 1
           (run_eq Script.pointless Script.gray_4x3 None) I).
Defined.

Lemma decode_rects_are_boxes_working :
  let run := Script.run Script.working Script.gray_4x3 None in
  exists ds,
    run = (Return ds, Script.working, snd run) /\ Forall boxed ds.
Proof.
  intro run.
  exists [mkDecoded [Byte.x68; Byte.x69] "QRCODE" (mkRect 10 10 40 20)].
  assert (run = (Return [mkDecoded [Byte.x68; Byte.x69] "QRCODE"
                                   (mkRect 10 10 40 20)],
                 Script.working, snd run)) as E by (vm_compute; reflexivity).
  split; [exact E|].
  exact (decode_rects_are_boxes Script.lib Script.enum_order 16 Script.gray_4x3
           None false Script.working Script.working _ _ E).
Defined.


(** The four corners of the rectangle from (10,10) to (50,30) give the box
    at (10,10) of width 40 and height 20, and the record that [decode]
    returns for the QR code read at these corners carries it. *)
Lemma rect_is_min_max_corners :
  (corners <> [] /\
   bounding_box_of_locations corners = Return (mkRect 10 10 40 20)) /\
  let run := Script.run Script.working Script.gray_4x3 None in
  let ds := [mkDecoded [Byte.x68; Byte.x69] "QRCODE" (mkRect 10 10 40 20)] in
  run = (Return ds, Script.working, snd run) /\
  exists pixels width height scanner im status reads,
    snd run = ScannerCreate scanner
                :: config_calls Script.lib Script.enum_order scanner (wanted None)
                ++ scan_calls scanner im pixels width height status
                ++ FirstSymbol im (head_symbol reads) :: reading_calls reads
                ++ [ImageDestroy im; ScannerDestroy scanner] /\
    Forall (fun r => read_symbol r <> 0) reads /\
    Forall2 (fun d r =>
               read_locations r <> [] /\
               bounding_box_of_locations (read_locations r) = Return (rect d) /\
               spans (read_locations r) (rect d))
            ds reads.
Proof.
  pose proof (rect_is_min_max (pil := Script.picture) (ndarray := Script.array)
                Script.lib Script.enum_order) as [Box Records].
  split.
  - assert (corners <> []) as N by discriminate.
    split; [exact N|].
    destruct (Box corners N)
      as (x0 & x1 & y0 & y1 & [Ix0 Lx0] & [Ix1 Lx1] & [Iy0 Ly0] & [Iy1 Ly1] & E).
    rewrite E. clear E.
    assert (x0 = 10) as ->.
    { specialize (Lx0 10). simpl in *. lia. }
    assert (x1 = 50) as ->.
    { specialize (Lx1 50). simpl in *. lia. }
    assert (y0 = 10) as ->.
    { specialize (Ly0 10). simpl in *. lia. }
    assert (y1 = 30) as ->.
    { specialize (Ly1 30). simpl in *. lia. }
    reflexivity.
  - intros run ds.
    assert (run = (Return ds, Script.working, snd run)) as E
        by (vm_compute; reflexivity).
    split; [exact E|].
    exact (Records 16%nat Script.gray_4x3 None false Script.working Script.working
                   ds (snd run) E).
Defined.

Lemma decode_configuration_scripted :
  let plain := Script.run Script.working Script.gray_4x3 None in
  let run := Script.run Script.working Script.gray_4x3 (Some [64]) in
  set_iteration Script.enum_order /\
  (wanted None = [] /\ In (ScannerCreate 7) (snd plain) /\
   filter is_config (snd plain) = []) /\
  (wanted (Some [64]) <> [] /\ In (ScannerCreate 7) (snd run) /\ 7 <> 0 /\
   exists order rest,
     NoDup order /\
     (forall s, In s order <->
                In s (map snd (ZBarSymbol Script.lib)) /\ ~ In s (wanted (Some [64]))) /\
     snd run = ScannerCreate 7
                 :: map (fun s => SetConfig 7 s (CFG_ENABLE Script.lib) 0) order
                 ++ map (fun s => SetConfig 7 s (CFG_ENABLE Script.lib) 1)
                        (wanted (Some [64]))
                 ++ rest /\
     filter is_config rest = [] /\
     (forall s i status, In (ScanImage s i status) (snd run) ->
                         In (ScanImage s i status) rest)).
Proof.
  intros plain run.
  assert (wanted None = []) as W0 by reflexivity.
  assert (In (ScannerCreate 7) (snd plain)) as I0 by (vm_compute; tauto).
  assert (wanted (Some [64]) <> []) as W1 by discriminate.
  assert (In (ScannerCreate 7) (snd run)) as I1 by (vm_compute; tauto).
  assert (7 <> 0) as N by discriminate.
  split; [exact set_iteration_enum_order|]. split.
  - split; [exact W0|]. split; [exact I0|].
    exact (proj1 (decode_configuration Script.lib Script.enum_order 16
                    Script.gray_4x3 None false Script.working _ _ _
                    set_iteration_enum_order
                    (run_eq Script.working Script.gray_4x3 None)) W0).
  - split; [exact W1|]. split; [exact I1|]. split; [exact N|].
    exact (proj2 (decode_configuration Script.lib Script.enum_order 16
                    Script.gray_4x3 (Some [64]) false Script.working _ _ _
                    set_iteration_enum_order
                    (run_eq Script.working Script.gray_4x3 (Some [64])))
                 W1 7 I1 N).
Defined.

Lemma decode_triple_unchanged_gray :
  let run := Script.run Script.working Script.gray_4x3 None in
  (int_truediv (8 * len (Script.blank 12)) (4 * 3) = Return eight /\
   int_eq_float 8 eight = true /\
   In (ImageCreate 9) (snd run) /\ 9 <> 0 /\
   In (SetSize 9 4 3) (snd run) /\
   In (SetData 9 (Script.blank 12) 12) (snd run)) /\
  pixels_width_height Script.gray_4x3 = Return (Script.blank 12, 4, 3) /\
  (exists scanner rest, snd run = ScannerCreate scanner :: rest) /\
  (exists before after,
      snd run = before
                  ++ ImageCreate 9 :: SetFormat 9 808466521
                  :: SetSize 9 4 3
                  :: SetData 9 (Script.blank 12) (len (Script.blank 12)) :: after) /\
  (forall im a b, In (SetSize im a b) (snd run) -> a = 4 /\ b = 3) /\
  (forall im d n, In (SetData im d n) (snd run) ->
                  d = Script.blank 12 /\ n = len (Script.blank 12)).
Proof.
  intro run.
  assert (int_truediv (8 * len (Script.blank 12)) (4 * 3) = Return eight) as D
      by (vm_compute; reflexivity).
  assert (int_eq_float 8 eight = true) as B by reflexivity.
  assert (In (ImageCreate 9) (snd run)) as I by (vm_compute; tauto).
  assert (9 <> 0) as N by discriminate.
  assert (In (SetSize 9 4 3) (snd run)) as IS by (vm_compute; tauto).
  assert (In (SetData 9 (Script.blank 12) 12) (snd run)) as ID
      by (vm_compute; tauto).
  split; [tauto|].
  destruct (decode_triple_unchanged Script.lib Script.enum_order 16
              (Script.blank 12) 4 3 None false Script.working _ _ _
              (run_eq Script.working Script.gray_4x3 None))
    as (P & _ & _ & Pass & Bound & Size & Data).
  split; [exact P|]. split; [exact (Pass _ D B)|].
  split; [exact (Bound 9 I N)|].
  split; [exact Size | exact Data].
Defined.

Lemma decode_symbols_one_per_symbol_working :
  let run := extend [] (decode_symbols Script.lib
                          (symbols_for_image Script.lib 16 9)) Script.working in
  let ds := [mkDecoded [Byte.x68; Byte.x69] "QRCODE" (mkRect 10 10 40 20)] in
  run = (Return ds, Script.working, snd run) /\
  exists reads,
    snd run = FirstSymbol 9 (head_symbol reads) :: reading_calls reads /\
    Forall (fun r => read_symbol r <> 0) reads /\
    (List.length reads <= 16)%nat /\
    List.length ds = List.length reads /\
    Forall2 (fun d r =>
               bounding_box_of_locations (read_locations r) = Return (rect d))
            ds reads.
Proof.
  intros run ds.
  assert (run = (Return ds, Script.working, snd run)) as E
      by (vm_compute; reflexivity).
  split; [exact E|].
  exact (decode_symbols_one_per_symbol Script.lib 16 9 Script.working
           Script.working ds (snd run) E).
Defined.
